(** * sync_unifi_filters: a shallow embedding of [sync_unifi_filters.py]

    The script synchronises a domain block-list between a text file and the
    content-filtering API of a Unifi controller.  This development embeds the
    file codec, the controller client and the command dispatcher, and proves
    properties of them.

    Conventions.
    - A Python [str] is a Rocq [string]; one [ascii] stands for one code point
      below 256.
    - A JSON document, and every Python value obtained from one, is a [json];
      Python's [None] is [JNull].  Numbers are integers.
    - A Python [dict] is an association list that keeps insertion order.
    - Effects (HTTP calls, the file system, the two output streams) live in a
      [world]; code that raises returns [Raise e]. *)

From Stdlib Require Import ZArith Ascii String List Lia DecimalString.
From stdpp Require Import base list strings gmap sorting.

Set Warnings "-register-all".

Local Open Scope string_scope.
Local Open Scope Z_scope.

(** ** Python strings *)

Module Str.

Definition LF : ascii := ascii_of_nat 10.
Definition CR : ascii := ascii_of_nat 13.

(** [str.isspace] on one character, for code points below 256:
    TAB, LF, VT, FF, CR, FS, GS, RS, US, SPACE, NEL and NBSP. *)
Definition isspace (c : ascii) : bool :=
  let n := N_of_ascii c in
  ((9 <=? n) && (n <=? 13) || (28 <=? n) && (n <=? 32)
   || (n =? 133) || (n =? 160))%N.

Definition is_empty (s : string) : bool :=
  match s with EmptyString => true | String _ _ => false end.

(** [s.lstrip()] *)
Fixpoint lstrip (s : string) : string :=
  match s with
  | EmptyString => EmptyString
  | String c r => if isspace c then lstrip r else s
  end.

(** [s.rstrip()]: a character is dropped when it is white space and
    everything after it is dropped too. *)
Fixpoint rstrip (s : string) : string :=
  match s with
  | EmptyString => EmptyString
  | String c r =>
      let r' := rstrip r in
      if isspace c && is_empty r' then EmptyString else String c r'
  end.

(** [s.strip()] *)
Definition strip (s : string) : string := rstrip (lstrip s).

(** [s.rstrip('/')] *)
Fixpoint rstrip_char (x : ascii) (s : string) : string :=
  match s with
  | EmptyString => EmptyString
  | String c r =>
      let r' := rstrip_char x r in
      if Ascii.eqb c x && is_empty r' then EmptyString else String c r'
  end.

(** [s.startswith(p)] *)
Definition startswith (p s : string) : bool := String.prefix p s.

(** [s.split(sep)] for a one-character separator: never the empty list. *)
Fixpoint split (sep : ascii) (s : string) : list string :=
  match s with
  | EmptyString => [EmptyString]
  | String c r =>
      if Ascii.eqb c sep then EmptyString :: split sep r
      else match split sep r with
           | [] => [String c EmptyString]
           | p :: ps => String c p :: ps
           end
  end.

(** [c * n] for a one-character string [c] *)
Fixpoint replicate (n : nat) (c : ascii) : string :=
  match n with
  | O => EmptyString
  | S k => String c (replicate k c)
  end.

(** [len(s)] *)
Definition len (s : string) : Z := Z.of_nat (String.length s).

(** Iterating over a text file opened with the default [newline=None]:
    the end-of-line sequences LF, CR LF and CR all terminate a line and
    are handed to the program as a single LF; a last line without
    terminator is still a line. *)
Fixpoint readlines (s : string) : list string :=
  match s with
  | EmptyString => []
  | String c r =>
      if Ascii.eqb c LF then String LF EmptyString :: readlines r
      else if Ascii.eqb c CR then
        match r with
        | String c' r' =>
            if Ascii.eqb c' LF then String LF EmptyString :: readlines r'
            else String LF EmptyString :: readlines r
        | EmptyString => [String LF EmptyString]
        end
      else match readlines r with
           | [] => [String c EmptyString]
           | l :: ls => String c l :: ls
           end
  end.

(** Characters that end a line when the file is read back. *)
Definition is_eol (c : ascii) : bool := Ascii.eqb c LF || Ascii.eqb c CR.

Fixpoint has_eol (s : string) : bool :=
  match s with
  | EmptyString => false
  | String c r => is_eol c || has_eol r
  end.

End Str.

(** ** JSON values and Python dictionaries *)

Inductive json : Type :=
| JNull
| JBool (b : bool)
| JNum (n : Z)
| JStr (s : string)
| JArr (items : list json)
| JObj (fields : list (string * json)).

Definition dict : Type := list (string * json).

(** [d.get(k)]: [None] when the key is missing. *)
Fixpoint dict_lookup (d : dict) (k : string) : option json :=
  match d with
  | [] => None
  | (k', v) :: rest => if String.eqb k' k then Some v else dict_lookup rest k
  end.

(** [d[k] = v]: an existing key keeps its position, a new one goes last. *)
Fixpoint dict_set (d : dict) (k : string) (v : json) : dict :=
  match d with
  | [] => [(k, v)]
  | (k', v') :: rest =>
      if String.eqb k' k then (k', v) :: rest
      else (k', v') :: dict_set rest k v
  end.

Definition dict_keys (d : dict) : list string := map fst d.

(** Truth value of a Python value in a condition. *)
Definition truthy (v : json) : bool :=
  match v with
  | JNull => false
  | JBool b => b
  | JNum n => negb (n =? 0)
  | JStr s => negb (Str.is_empty s)
  | JArr l => match l with [] => false | _ => true end
  | JObj d => match d with [] => false | _ => true end
  end.

(** [v == s] for a string [s]: only an equal string compares equal. *)
Definition eq_str (v : json) (s : string) : bool :=
  match v with
  | JStr s' => String.eqb s' s
  | _ => false
  end.

(** A Python list of strings as a value, and back. *)
Definition of_strs (l : list string) : json := JArr (map JStr l).

Fixpoint strs_of_items (l : list json) : option (list string) :=
  match l with
  | [] => Some []
  | JStr s :: rest =>
      match strs_of_items rest with
      | Some ss => Some (s :: ss)
      | None => None
      end
  | _ :: _ => None
  end.

(** [sorted(l)] on strings: stable merge sort, code-point lexicographic
    order. *)
Definition sorted (l : list string) : list string := merge_sort String.le l.

(** ** Exceptions, diagnostics and the world *)

Inductive exn : Type :=
| HTTPError (status : Z)     (* requests.exceptions.HTTPError *)
| InvalidHeader              (* requests.exceptions.InvalidHeader *)
| ValueError                 (* binascii.Error, json.JSONDecodeError,
                                UnicodeDecodeError, ... *)
| OSError                    (* IsADirectoryError, PermissionError, ... *)
| AttributeError
| KeyError (key : string)
| TypeError
| SystemExit (code : Z).

(** [except requests.exceptions.RequestException] *)
Definition is_RequestException (e : exn) : bool :=
  match e with HTTPError _ | InvalidHeader => true | _ => false end.

(** [except Exception]: everything but [SystemExit]. *)
Definition is_Exception (e : exn) : bool :=
  match e with SystemExit _ => false | _ => true end.

(** One constructor for each [print(..., file=sys.stderr)] of the script,
    with the values its f-string interpolates. *)
Inductive diag : Type :=
| CsrfWarning (e : exn)       (* Warning: Could not extract CSRF token: {e} *)
| LoggedIn (with_token : bool)
    (* ✓ Logged in to Unifi Controller (CSRF token acquired), or
       ✓ Logged in to Unifi Controller (Warning: No CSRF token) *)
| FilterNotFound (filter_name : string)
    (* ✗ Filter '{filter_name}' not found. Please create it ... *)
| Updated (count : nat)       (* ✓ Updated {count} domains on Unifi Controller *)
| FileNotFound (filepath : string)  (* ✗ Filter file '{filepath}' not found *)
| ReadDomains (count : nat) (filepath : string)
    (* ✓ Read {count} domains from {filepath} *)
| WroteDomains (count : nat) (filepath : string)
    (* ✓ Wrote {count} domains to {filepath} *)
| Fetched (count : nat)       (* ✓ Fetched {count} domains from Unifi Controller *)
| NoDomains                   (* ✗ No domains to sync *)
| ErrorDiag (e : exn).        (* ✗ Error: {e} *)

Inductive glyph : Type := Tick | Cross | Plain.

(** The status glyph that opens the message. *)
Definition glyph_of (d : diag) : glyph :=
  match d with
  | CsrfWarning _ => Plain
  | LoggedIn _ | Updated _ | ReadDomains _ _ | WroteDomains _ _ | Fetched _ => Tick
  | FilterNotFound _ | FileNotFound _ | NoDomains | ErrorDiag _ => Cross
  end.

Definition is_failure (d : diag) : bool :=
  match glyph_of d with Cross => true | _ => false end.

(** Calls made on the [requests.Session]. *)
Inductive http_call : Type :=
| POST (url : string) (body : dict)
| GET (url : string)
| PUT (url : string) (filter_id : json) (body : dict) (headers : dict).

Definition is_PUT (c : http_call) : bool :=
  match c with PUT _ _ _ _ => true | _ => false end.

(** What there is at a path of the file system. *)
Inductive entry : Type :=
| Text (content : string)   (* a file whose bytes decode to this text *)
| Unreadable                (* a directory, a file that may not be read:
                               [open] raises [OSError] *)
| Undecodable.              (* a file whose bytes do not decode: reading it
                               raises [UnicodeDecodeError] *)

(** The controller answers as the first five fields say: the status of the
    answer to the login and the [TOKEN] cookie it sets, the status and the
    body of the answer to the listing (a JSON array of objects), the status
    of the answer to an update.  The remaining fields are the local file
    system and what the run has done so far.  Connections always succeed,
    and so does opening a path for writing. *)
Record world : Type := World {
  login_status : Z;
  login_cookie : option string;
  list_status : Z;
  remote_filters : list dict;
  put_status : Z;
  files : gmap string entry;
  calls : list http_call;
  stdout : list string;
  stderr : list diag
}.

Definition log_call (c : http_call) (w : world) : world :=
  World (login_status w) (login_cookie w) (list_status w) (remote_filters w)
        (put_status w) (files w) (calls w ++ [c]) (stdout w) (stderr w).

Definition put_stdout (s : string) (w : world) : world :=
  World (login_status w) (login_cookie w) (list_status w) (remote_filters w)
        (put_status w) (files w) (calls w) (stdout w ++ [s]) (stderr w).

Definition put_stderr (d : diag) (w : world) : world :=
  World (login_status w) (login_cookie w) (list_status w) (remote_filters w)
        (put_status w) (files w) (calls w) (stdout w) (stderr w ++ [d]).

Definition put_file (path content : string) (w : world) : world :=
  World (login_status w) (login_cookie w) (list_status w) (remote_filters w)
        (put_status w) (<[path := Text content]> (files w)) (calls w)
        (stdout w) (stderr w).

(** ** The monad of effectful code *)

Inductive result (A : Type) : Type :=
| Ok (a : A)
| Raise (e : exn).
Arguments Ok {A} a.
Arguments Raise {A} e.

Definition M (A : Type) : Type := world -> result A * world.

#[global] Instance M_ret : MRet M := fun A a w => (Ok a, w).

#[global] Instance M_bind : MBind M := fun A B k m w =>
  match m w with
  | (Ok a, w') => k a w'
  | (Raise e, w') => (Raise e, w')
  end.

Definition raise {A} (e : exn) : M A := fun w => (Raise e, w).

(** [try: body  except <class> as e: handler e] *)
Definition try_except {A} (body : M A) (catches : exn -> bool)
    (handler : exn -> M A) : M A := fun w =>
  match body w with
  | (Ok a, w') => (Ok a, w')
  | (Raise e, w') => if catches e then handler e w' else (Raise e, w')
  end.

Definition print_err (d : diag) : M unit := fun w => (Ok tt, put_stderr d w).
Definition print_out (s : string) : M unit := fun w => (Ok tt, put_stdout s w).

(** [for x in l: body x] *)
Fixpoint for_each {A} (l : list A) (body : A -> M unit) : M unit :=
  match l with
  | [] => mret tt
  | x :: rest => body x ;; for_each rest body
  end.

(** [response.raise_for_status()] raises on the client errors (4xx) and
    the server errors (5xx), and on no other status. *)
Definition http_error (status : Z) : bool :=
  (400 <=? status) && (status <? 600).

Definition raise_for_status (status : Z) : M unit :=
  if http_error status then raise (HTTPError status) else mret tt.

(** The library functions taken as they are.  [urlsafe_b64decode] and
    [json_loads] are the two that [_extract_csrf_token] calls; [None]
    stands for raising (all their errors derive from [ValueError]).
    [py_sorted] is [sorted] on a list of values that are not all strings,
    [None] standing for [TypeError], and [py_str] is [str] on a value that
    is not a string. *)
Class PyLib : Type := {
  urlsafe_b64decode : string -> option string;
  json_loads : string -> option json;
  py_sorted : list json -> option (list json);
  py_str : json -> string
}.

Definition lift_lib {A} (o : option A) : M A :=
  match o with
  | Some a => mret a
  | None => raise ValueError
  end.

(** ** The controller client: [class UnifiContentFilter] *)

Definition nl : string := String Str.LF EmptyString.

(** The fields of the object; [session_token] is the [TOKEN] cookie held by
    [self.session.cookies], if any. *)
Record UnifiContentFilter : Type := Client {
  host : string;
  username : string;
  password : string;
  site : string;
  session_token : option string;
  csrf_token : json
}.

(** [__init__] *)
Definition init (host username password site : string) : UnifiContentFilter :=
  Client (Str.rstrip_char "/" host) username password site None JNull.

Definition set_csrf_token (self : UnifiContentFilter) (v : json) :=
  Client (host self) (username self) (password self) (site self)
         (session_token self) v.

(** A response that sets the cookie replaces the one in the jar. *)
Definition store_cookie (self : UnifiContentFilter) (c : option string) :=
  Client (host self) (username self) (password self) (site self)
         (match c with Some _ => c | None => session_token self end)
         (csrf_token self).

(** [self.session.post(url, json=data)]: the response's status, and the
    client with the cookie of the response in its jar. *)
Definition session_post (self : UnifiContentFilter) (url : string)
    (data : dict) : M (UnifiContentFilter * Z) := fun w =>
  (Ok (store_cookie self (login_cookie w), login_status w),
   log_call (POST url data) w).

(** [self.session.get(url)]: status and decoded body. *)
Definition session_get (url : string) : M (Z * list dict) := fun w =>
  (Ok (list_status w, remote_filters w), log_call (GET url) w).

(** [s] without its last character when that is a line feed. *)
Fixpoint drop_final_LF (s : string) : string :=
  match s with
  | EmptyString => EmptyString
  | String c r =>
      match r with
      | EmptyString => if Ascii.eqb c Str.LF then EmptyString else s
      | String _ _ => String c (drop_final_LF r)
      end
  end.

(** The check [requests] makes on a header value that is a [str] when it
    prepares a request: the value must match [^\S[^\r\n]*$|^$], where [$]
    also matches before a final line feed, so that a lone line feed
    matches the second alternative. *)
Definition clean_header_value (s : string) : bool :=
  match s with
  | EmptyString => true
  | String c r =>
      (negb (Str.isspace c) && negb (Str.has_eol (drop_final_LF r)))
      || (Ascii.eqb c Str.LF && Str.is_empty r)
  end.

(** The check [http.client] makes when the header is put on the wire: a
    line feed must be followed by a blank or a tab, a carriage return by a
    blank, a tab or a line feed. *)
Fixpoint illegal_header_value (s : string) : bool :=
  match s with
  | EmptyString => false
  | String c r =>
      let blank_next (also_LF : bool) :=
        match r with
        | String d _ =>
            Ascii.eqb d " " || Ascii.eqb d (ascii_of_nat 9)
            || (also_LF && Ascii.eqb d Str.LF)
        | EmptyString => false
        end in
      (Ascii.eqb c Str.LF && negb (blank_next false))
      || (Ascii.eqb c Str.CR && negb (blank_next true))
      || illegal_header_value r
  end.

(** The exception, if any, that stops a request with the header value [v]
    before anything is sent: [requests] refuses a value that is not a
    string or not a clean one, [http.client] one with a bare line end. *)
Definition header_error (v : json) : option exn :=
  match v with
  | JStr s =>
      if negb (clean_header_value s) then Some InvalidHeader
      else if illegal_header_value s then Some ValueError
      else None
  | _ => Some InvalidHeader
  end.

Fixpoint headers_error (headers : dict) : option exn :=
  match headers with
  | [] => None
  | (_, v) :: rest =>
      match header_error v with
      | Some e => Some e
      | None => headers_error rest
      end
  end.

(** [self.session.put(url, json=body, headers=headers)], the URL being
    [url] followed by the formatted [filter_id].  Nothing is sent when a
    header value is refused. *)
Definition session_put (url : string) (filter_id : json) (body headers : dict)
    : M Z := fun w =>
  match headers_error headers with
  | Some e => (Raise e, w)
  | None => (Ok (put_status w), log_call (PUT url filter_id body headers) w)
  end.

(** [payload_data.get('csrfToken')]: only a dict has [get]. *)
Definition py_get (v : json) (k : string) : M json :=
  match v with
  | JObj d => mret (from_option id JNull (dict_lookup d k))
  | _ => raise AttributeError
  end.

(** [d[k]] *)
Definition py_subscript (d : dict) (k : string) : M json :=
  match dict_lookup d k with
  | Some v => mret v
  | None => raise (KeyError k)
  end.

Section Program.
Context {lib : PyLib}.

Definition _extract_csrf_token (self : UnifiContentFilter) : M json :=
  match session_token self with
  | None => mret JNull
  | Some token_cookie =>
      if Str.is_empty token_cookie then mret JNull
      else
        try_except
          (let parts := Str.split "." token_cookie in
           match parts with
           | [_; payload; _] =>
               let padding := 4 - Str.len payload `mod` 4 in
               let payload :=
                 if negb (padding =? 4)
                 then payload +:+ Str.replicate (Z.to_nat padding) "="
                 else payload in
               decoded ← lift_lib (urlsafe_b64decode payload);
               payload_data ← lift_lib (json_loads decoded);
               py_get payload_data "csrfToken"
           | _ => mret JNull
           end)
          is_Exception
          (fun e => print_err (CsrfWarning e) ;; mret JNull)
  end.

Definition login (self : UnifiContentFilter) : M UnifiContentFilter :=
  let url := host self +:+ "/api/auth/login" in
  let data := [("username", JStr (username self));
               ("password", JStr (password self))] in
  '(self, response) ← session_post self url data;
  raise_for_status response ;;
  token ← _extract_csrf_token self;
  let self := set_csrf_token self token in
  (if truthy (csrf_token self) then print_err (LoggedIn true)
   else print_err (LoggedIn false)) ;;
  mret self.

Definition get_content_filters (self : UnifiContentFilter)
    : M (list dict) :=
  let url := host self +:+ "/proxy/network/v2/api/site/" +:+ site self
             +:+ "/content-filtering" in
  '(response, body) ← session_get url;
  raise_for_status response ;;
  mret body.

(** The loop of [find_filter]. *)
Fixpoint first_named (filters : list dict) (filter_name : string)
    : option dict :=
  match filters with
  | [] => None
  | f :: rest =>
      if eq_str (from_option id JNull (dict_lookup f "name")) filter_name
      then Some f
      else first_named rest filter_name
  end.

Definition find_filter (self : UnifiContentFilter) (filter_name : string)
    : M (option dict) :=
  filters ← get_content_filters self;
  mret (first_named filters filter_name).

Definition update_content_filters (self : UnifiContentFilter)
    (filter_name : string) (domains : list string) : M bool :=
  content_filter ← find_filter self filter_name;
  match content_filter with
  | Some ((_ :: _) as content_filter) =>
      filter_id ← py_subscript content_filter "_id";
      let url := host self +:+ "/proxy/network/v2/api/site/" +:+ site self
                 +:+ "/content-filtering/" in
      let content_filter :=
        dict_set content_filter "block_list" (of_strs domains) in
      let headers : dict :=
        if truthy (csrf_token self)
        then [("X-CSRF-Token", csrf_token self)] else [] in
      response ← session_put url filter_id content_filter headers;
      raise_for_status response ;;
      print_err (Updated (length domains)) ;;
      mret true
  | _ =>
      (* [not content_filter]: [None], or a dict without any key *)
      print_err (FilterNotFound filter_name) ;;
      mret false
  end.

End Program.

(** ** The file codec *)

(** [os.path.exists(filepath)], with what is found there. *)
Definition path_lookup (filepath : string) : M (option entry) := fun w =>
  (Ok (files w !! filepath), w).

(** [open(filepath, 'r')] and the reading of the whole file. *)
Definition read_text (f : entry) : M string :=
  match f with
  | Text content => mret content
  | Unreadable => raise OSError
  | Undecodable => raise ValueError
  end.

Definition write_text (filepath content : string) : M unit := fun w =>
  (Ok tt, put_file filepath content w).

(** The test of the loop body of [read_filter_file], on a stripped line. *)
Definition is_domain_line (line : string) : bool :=
  negb (Str.is_empty line) && negb (Str.startswith "#" line).

Definition read_filter_file (filepath : string) (silent : bool)
    : M (list string) :=
  let domains : list string := [] in
  f ← path_lookup filepath;
  match f with
  | None =>
      (if negb silent then print_err (FileNotFound filepath) else mret tt) ;;
      mret domains
  | Some f =>
      f ← read_text f;
      let domains :=
        fold_left
          (fun (domains : list string) line =>
             let line := Str.strip line in
             if is_domain_line line then (domains ++ [line])%list
             else domains)
          (Str.readlines f) domains in
      (if negb silent then print_err (ReadDomains (length domains) filepath)
       else mret tt) ;;
      mret domains
  end.

(** What [write_filter_file] has written when the file is closed, for
    [domains] a list of strings as its annotation says. *)
Definition file_text (domains : list string) (filter_name : string) : string :=
  let f := "" in
  let f := f +:+ ("# " +:+ filter_name +:+ nl) in
  let f := f +:+ ("# Lines starting with '#' are comments" +:+ nl) in
  let f := f +:+ ("# Edit this file and run 'sync' to update the Unifi controller"
                  +:+ nl +:+ nl) in
  fold_left (fun f domain => f +:+ (domain +:+ nl)) (sorted domains) f.

Definition write_filter_file (filepath : string) (domains : list string)
    (filter_name : string) : M unit :=
  write_text filepath (file_text domains filter_name) ;;
  print_err (WroteDomains (length domains) filepath).

(** ** The command dispatcher *)

(** The parsed command line. *)
Inductive command : Type :=
| Fetch (filter_name : string) (output : option string)
| Sync (filter_name : string) (file : string).

(** The module-level configuration read from the environment. *)
Record config : Type := Config {
  UNIFI_HOST : string;
  UNIFI_USERNAME : string;
  UNIFI_PASSWORD : string;
  SITE_NAME : string
}.

(** [len(v)] *)
Definition py_len (v : json) : M nat :=
  match v with
  | JArr l => mret (length l)
  | JStr s => mret (String.length s)
  | JObj d => mret (length d)
  | _ => raise TypeError
  end.

(** The values that iterating over [v] yields: the items of a list, the
    characters of a string, the keys of a dict. *)
Definition py_iter (v : json) : M (list json) :=
  match v with
  | JArr l => mret l
  | JStr s =>
      mret (map (fun c => JStr (String c EmptyString)) (list_ascii_of_string s))
  | JObj d => mret (map JStr (dict_keys d))
  | _ => raise TypeError
  end.

(** [v] seen as the list of strings that the annotations of the script
    promise, when it is one. *)
Definition as_strs (v : json) : option (list string) :=
  match v with
  | JArr l => strs_of_items l
  | _ => None
  end.

Section Untyped.
Context {lib : PyLib}.

(** What [print(x)] and [f"{x}"] show of [x]. *)
Definition text_of (x : json) : string :=
  match x with
  | JStr s => s
  | _ => py_str x
  end.

(** The texts of the values of [sorted(v)], in that order. *)
Definition sorted_texts (v : json) : M (list string) :=
  items ← py_iter v;
  match strs_of_items items with
  | Some strs => mret (sorted strs)
  | None =>
      match py_sorted items with
      | Some l => mret (map text_of l)
      | None => raise TypeError
      end
  end.

(** [write_filter_file] when [domains] is not the list of strings of its
    annotation: the file is opened and the header written before [sorted]
    is called, so that a [TypeError] leaves the header alone in the file. *)
Definition write_filter_file_untyped (filepath : string) (domains : json)
    (filter_name : string) : M unit :=
  let f := "" in
  let f := f +:+ ("# " +:+ filter_name +:+ nl) in
  let f := f +:+ ("# Lines starting with '#' are comments" +:+ nl) in
  let f := f +:+ ("# Edit this file and run 'sync' to update the Unifi controller"
                  +:+ nl +:+ nl) in
  write_text filepath f ;;
  lines ← sorted_texts domains;
  write_text filepath
    (fold_left (fun f domain => f +:+ (domain +:+ nl)) lines f) ;;
  count ← py_len domains;
  print_err (WroteDomains count filepath).

End Untyped.

(** [if args.output:] *)
Definition output_given (output : option string) : option string :=
  match output with
  | Some p => if Str.is_empty p then None else Some p
  | None => None
  end.

Section Main.
Context {lib : PyLib}.
Variable cfg : config.

Definition main (args : command) : M unit :=
  let unifi := init (UNIFI_HOST cfg) (UNIFI_USERNAME cfg)
                    (UNIFI_PASSWORD cfg) (SITE_NAME cfg) in
  try_except
    (unifi ← login unifi;
     match args with
     | Fetch filter_name output =>
         content_filter ← find_filter unifi filter_name;
         match content_filter with
         | Some ((_ :: _) as content_filter) =>
             let domains :=
               from_option id (JArr [])
                 (dict_lookup content_filter "block_list") in
             count ← py_len domains;
             print_err (Fetched count) ;;
             match output_given output with
             | Some path =>
                 match as_strs domains with
                 | Some domains => write_filter_file path domains filter_name
                 | None => write_filter_file_untyped path domains filter_name
                 end
             | None =>
                 lines ← sorted_texts domains;
                 for_each lines print_out
             end
         | _ =>
             print_err (FilterNotFound filter_name) ;;
             raise (SystemExit 1)
         end
     | Sync filter_name file =>
         domains ← read_filter_file file false;
         match domains with
         | _ :: _ =>
             success ← update_content_filters unifi filter_name domains;
             if negb success then raise (SystemExit 1) else mret tt
         | [] =>
             print_err NoDomains ;;
             raise (SystemExit 1)
         end
     end)
    is_RequestException
    (fun e => print_err (ErrorDiag e) ;; raise (SystemExit 1)).

(** Exit status of the process: 0 when [main] returns, the code of
    [sys.exit], and 1 after an uncaught exception. *)
Definition exit_status (r : result unit) : Z :=
  match r with
  | Ok _ => 0
  | Raise (SystemExit code) => code
  | Raise _ => 1
  end.

Definition run (args : command) (w : world) : Z * world :=
  let (r, w') := main args w in (exit_status r, w').

End Main.

(** ** A reference instance of the library functions

    The properties below hold for every [PyLib].  To run the program on
    concrete cookies, this instance decodes base64 the way CPython's
    [binascii.a2b_base64] does in its default, non-strict mode, and reads
    the JSON documents made of objects, arrays, strings with the
    single-character escapes, integers and the three literals.  It sorts
    the lists of numbers and refuses the other lists of two values or
    more, lists of lists included; it shows strings inside a list or a
    dict between single quotes, without escapes. *)

Module Ref.

Definition quote : ascii := ascii_of_nat 34.
Definition backslash : ascii := ascii_of_nat 92.

Definition between (lo hi : N) (c : ascii) : bool :=
  ((lo <=? N_of_ascii c) && (N_of_ascii c <=? hi))%N.

(** Value of a character of the base64 alphabet, after the URL-safe
    letters [-] and [_] have been translated to [+] and [/]. *)
Definition b64_value (c : ascii) : option N :=
  let n := N_of_ascii c in
  if between 65 90 c then Some (n - 65)%N
  else if between 97 122 c then Some (n - 97 + 26)%N
  else if between 48 57 c then Some (n - 48 + 52)%N
  else if ((n =? 43) || (n =? 45))%N then Some 62%N
  else if ((n =? 47) || (n =? 95))%N then Some 63%N
  else None.

Definition byte (n : N) : ascii := ascii_of_N (n mod 256).

(** The decoding loop: [quad_pos] characters of the current group of four
    have been read, [leftchar] holds their pending bits, [pads] counts
    the [=] seen since the last data character.  Characters outside the
    alphabet are skipped. *)
Fixpoint a2b_base64 (s : string) (quad_pos : nat) (leftchar : N)
    (pads : nat) : option string :=
  match s with
  | EmptyString =>
      match quad_pos with O => Some EmptyString | _ => None end
  | String c r =>
      if Ascii.eqb c "=" then
        if (2 <=? quad_pos)%nat then
          if (4 <=? quad_pos + S pads)%nat then Some EmptyString
          else a2b_base64 r quad_pos leftchar (S pads)
        else a2b_base64 r quad_pos leftchar pads
      else
        match b64_value c with
        | None => a2b_base64 r quad_pos leftchar pads
        | Some v =>
            match quad_pos with
            | 0%nat => a2b_base64 r 1 v 0
            | 1%nat =>
                String (byte (leftchar * 4 + v / 16)) <$>
                a2b_base64 r 2 (v mod 16) 0
            | 2%nat =>
                String (byte (leftchar * 16 + v / 4)) <$>
                a2b_base64 r 3 (v mod 4) 0
            | _ =>
                String (byte (leftchar * 64 + v)) <$> a2b_base64 r 0 0 0
            end
        end
  end.

Fixpoint all_ascii (s : string) : bool :=
  match s with
  | EmptyString => true
  | String c r => (N_of_ascii c <? 128)%N && all_ascii r
  end.

Definition b64decode (s : string) : option string :=
  if all_ascii s then a2b_base64 s 0 0 0 else None.

Definition is_ws (c : ascii) : bool :=
  let n := N_of_ascii c in ((n =? 32) || (n =? 9) || (n =? 10) || (n =? 13))%N.

Fixpoint skip_ws (s : string) : string :=
  match s with
  | String c r => if is_ws c then skip_ws r else s
  | EmptyString => EmptyString
  end.

(** [expect p s]: [s] without its prefix [p]. *)
Fixpoint expect (p s : string) : option string :=
  match p, s with
  | EmptyString, _ => Some s
  | String a p', String b s' => if Ascii.eqb a b then expect p' s' else None
  | String _ _, EmptyString => None
  end.

Definition unescape (c : ascii) : option ascii :=
  let n := N_of_ascii c in
  if ((n =? 34) || (n =? 92) || (n =? 47))%N then Some c
  else if (n =? 98)%N then Some (ascii_of_nat 8)
  else if (n =? 102)%N then Some (ascii_of_nat 12)
  else if (n =? 110)%N then Some (ascii_of_nat 10)
  else if (n =? 114)%N then Some (ascii_of_nat 13)
  else if (n =? 116)%N then Some (ascii_of_nat 9)
  else None.

(** After the opening quote: the text up to the closing quote, and the
    rest of the input. *)
Fixpoint string_body (s : string) : option (string * string) :=
  match s with
  | EmptyString => None
  | String c r =>
      if Ascii.eqb c quote then Some (EmptyString, r)
      else if Ascii.eqb c backslash then
        match r with
        | String e r' =>
            match unescape e, string_body r' with
            | Some x, Some (t, rest) => Some (String x t, rest)
            | _, _ => None
            end
        | EmptyString => None
        end
      else if (N_of_ascii c <? 32)%N then None
      else match string_body r with
           | Some (t, rest) => Some (String c t, rest)
           | None => None
           end
  end.

Definition is_digit (c : ascii) : bool := between 48 57 c.

Fixpoint digits (acc : Z) (s : string) : Z * string :=
  match s with
  | String c r =>
      if is_digit c
      then digits (10 * acc + Z.of_N (N_of_ascii c) - 48) r
      else (acc, s)
  | EmptyString => (acc, s)
  end.

(** An integer without sign; a leading zero stands alone, and a fraction
    or an exponent is not read. *)
Definition natural (s : string) : option (Z * string) :=
  match s with
  | String c r =>
      if is_digit c then
        let '(n, rest) :=
          if Ascii.eqb c "0" then (0, r) else digits 0 s in
        match rest with
        | String d _ =>
            if is_digit d || Ascii.eqb d "." || Ascii.eqb d "e"
               || Ascii.eqb d "E"
            then None else Some (n, rest)
        | EmptyString => Some (n, rest)
        end
      else None
  | EmptyString => None
  end.

Fixpoint value (fuel : nat) (s : string) : option (json * string) :=
  match fuel with
  | O => None
  | S fuel =>
      match skip_ws s with
      | EmptyString => None
      | String c r =>
          if Ascii.eqb c "n" then pair JNull <$> expect "ull" r
          else if Ascii.eqb c "t" then pair (JBool true) <$> expect "rue" r
          else if Ascii.eqb c "f" then pair (JBool false) <$> expect "alse" r
          else if Ascii.eqb c quote then
            prod_map JStr id <$> string_body r
          else if Ascii.eqb c "-" then
            prod_map (fun n => JNum (- n)) id <$> natural r
          else if Ascii.eqb c "[" then
            match skip_ws r with
            | String "]" r' => Some (JArr [], r')
            | _ => prod_map JArr id <$> items fuel r
            end
          else if Ascii.eqb c "{" then
            match skip_ws r with
            | String "}" r' => Some (JObj [], r')
            | _ => prod_map JObj id <$> members fuel r
            end
          else prod_map JNum id <$> natural (String c r)
      end
  end
with items (fuel : nat) (s : string) : option (list json * string) :=
  match fuel with
  | O => None
  | S fuel =>
      match value fuel s with
      | Some (v, rest) =>
          match skip_ws rest with
          | String "]" r' => Some ([v], r')
          | String "," r' => prod_map (cons v) id <$> items fuel r'
          | _ => None
          end
      | None => None
      end
  end
with members (fuel : nat) (s : string)
    : option (list (string * json) * string) :=
  match fuel with
  | O => None
  | S fuel =>
      match skip_ws s with
      | String c r =>
          if Ascii.eqb c quote then
            match string_body r with
            | Some (k, rest) =>
                match skip_ws rest with
                | String ":" rest' =>
                    match value fuel rest' with
                    | Some (v, rest'') =>
                        match skip_ws rest'' with
                        | String "}" r' => Some ([(k, v)], r')
                        | String "," r' =>
                            prod_map (cons (k, v)) id <$> members fuel r'
                        | _ => None
                        end
                    | None => None
                    end
                | _ => None
                end
            | None => None
            end
          else None
      | EmptyString => None
      end
  end.

(** Python's [dict] keeps the last value of a repeated key, at the
    position of the first. *)
Fixpoint dedup (d : list (string * json)) (acc : dict) : dict :=
  match d with
  | [] => acc
  | (k, v) :: rest => dedup rest (dict_set acc k v)
  end.

Definition loads (s : string) : option json :=
  match value (2 * String.length s + 2) s with
  | Some (v, rest) =>
      match skip_ws rest with
      | EmptyString =>
          Some (match v with JObj d => JObj (dedup d []) | _ => v end)
      | String _ _ => None
      end
  | None => None
  end.

(** The number a value counts as in a comparison, [True] being 1. *)
Definition num_key (v : json) : option Z :=
  match v with
  | JNum n => Some n
  | JBool b => Some (if b then 1 else 0)
  | _ => None
  end.

Definition num_le (a b : json) : Prop :=
  from_option id 0 (num_key a) <= from_option id 0 (num_key b).

#[global] Instance num_le_dec : RelDecision num_le :=
  fun a b => decide (from_option id 0 (num_key a)
                     <= from_option id 0 (num_key b)).

Definition sort_values (l : list json) : option (list json) :=
  match l with
  | [] | [_] => Some l
  | _ =>
      if forallb (fun v => bool_decide (is_Some (num_key v))) l
      then Some (merge_sort num_le l)
      else None
  end.

Definition decimal (n : Z) : string := NilZero.string_of_int (Z.to_int n).

Fixpoint repr (v : json) : string :=
  match v with
  | JNull => "None"
  | JBool b => if b then "True" else "False"
  | JNum n => decimal n
  | JStr s => "'" +:+ s +:+ "'"
  | JArr l =>
      "[" +:+
      (fix items (l : list json) : string :=
         match l with
         | [] => ""
         | [x] => repr x
         | x :: rest => repr x +:+ ", " +:+ items rest
         end) l
      +:+ "]"
  | JObj d =>
      "{" +:+
      (fix members (d : list (string * json)) : string :=
         match d with
         | [] => ""
         | [(k, x)] => "'" +:+ k +:+ "': " +:+ repr x
         | (k, x) :: rest =>
             "'" +:+ k +:+ "': " +:+ repr x +:+ ", " +:+ members rest
         end) d
      +:+ "}"
  end.

Definition lib : PyLib :=
  {| urlsafe_b64decode := b64decode; json_loads := loads;
     py_sorted := sort_values; py_str := repr |}.

End Ref.

(** ** Vocabulary of the statements *)

(** A world in which nothing has happened yet: no file, no output, a
    controller that answers 200 and holds no filter. *)
Definition idle : world := World 200 None 200 [] 200 ∅ [] [] [].

(** [idle] with a directory at the path [filters.d]. *)
Definition directory_world : world :=
  World 200 None 200 [] 200 {["filters.d" := Unreadable]} [] [] [].

(** [write_filter_file] followed by [read_filter_file] on the same path. *)
Definition write_then_read (filepath : string) (domains : list string)
    (filter_name : string) : M (list string) :=
  write_filter_file filepath domains filter_name ;;
  read_filter_file filepath false.

(** A domain that the file format can carry: already stripped, not empty,
    not starting with [#], free of end-of-line characters. *)
Definition clean_domain (d : string) : bool :=
  String.eqb (Str.strip d) d && negb (Str.is_empty d)
  && negb (Str.startswith "#" d) && negb (Str.has_eol d).

(** The text of the lines [l], each followed by a line feed. *)
Definition lines_text (l : list string) : string :=
  fold_right (fun d rest => d +:+ nl +:+ rest) "" l.

(** The header [write_filter_file] puts before the domains. *)
Definition header (filter_name : string) : string :=
  "# " +:+ filter_name +:+ nl +:+
  "# Lines starting with '#' are comments" +:+ nl +:+
  "# Edit this file and run 'sync' to update the Unifi controller" +:+ nl +:+
  nl.



(** The exception, if any, with which the header made from [token] stops
    the update before it is sent. *)
Definition token_error (token : json) : option exn :=
  if truthy token then header_error token else None.

(** The filter [f] carries the name [filter_name]. *)
Definition has_name (f : dict) (filter_name : string) : Prop :=
  dict_lookup f "name" = Some (JStr filter_name).

(** The URLs the client builds. *)
Definition filters_url (self : UnifiContentFilter) : string :=
  host self +:+ "/proxy/network/v2/api/site/" +:+ site self
  +:+ "/content-filtering".

Definition filter_url_prefix (self : UnifiContentFilter) : string :=
  host self +:+ "/proxy/network/v2/api/site/" +:+ site self
  +:+ "/content-filtering/".

(** The PUT calls among the calls made. *)
Definition puts (w : world) : list http_call := List.filter is_PUT (calls w).

(** The world [w] with a controller that holds [filters]. *)
Definition with_filters (filters : list dict) (w : world) : world :=
  World (login_status w) (login_cookie w) (list_status w) filters
        (put_status w) (files w) (calls w) (stdout w) (stderr w).

(** Concrete data for the examples. *)
Definition three_filters : list dict :=
  [[("_id", JStr "1"); ("name", JStr "samsung adblock")];
   [("_id", JStr "2"); ("name", JStr "Samsung Adblock");
    ("block_list", of_strs ["b.com"; "a.com"]); ("enabled", JBool true)];
   [("_id", JStr "3"); ("name", JStr "Samsung Adblock")]].

Definition example_client : UnifiContentFilter :=
  init "https://unifi.local/" "admin" "password" "default".

Definition example_config : config :=
  Config "https://unifi.local/" "admin" "password" "default".


(** A filter whose [block_list] is JSON [null]. *)
Definition filter_with_null_block_list : dict :=
  [("_id", JStr "9"); ("name", JStr "Samsung Adblock"); ("block_list", JNull)].

(** The text is written with the letters, digits, [-] and [_] of the
    URL-safe base64 alphabet, and [=]. *)
Fixpoint base64url_text (s : string) : bool :=
  match s with
  | EmptyString => true
  | String c r =>
      let n := N_of_ascii c in
      (((65 <=? n) && (n <=? 90)) || ((97 <=? n) && (n <=? 122))
       || ((48 <=? n) && (n <=? 57)) || (n =? 45) || (n =? 95)
       || (n =? 61))%N
      && base64url_text r
  end.

(** The payload padded with [=] to a multiple of four characters. *)
Definition pad_to_multiple_of_4 (payload : string) : string :=
  payload +:+
  Str.replicate (Nat.modulo (4 - Nat.modulo (String.length payload) 4) 4) "=".

Section Cookies.
Context {lib : PyLib}.

(** A three-part token whose middle part decodes, once padded, to a JSON
    object in which [csrfToken] is [v]. *)
Definition well_formed (cookie : string) (v : json) : Prop :=
  exists header payload signature decoded fields,
    Str.split "." cookie = [header; payload; signature]
    /\ urlsafe_b64decode (pad_to_multiple_of_4 payload) = Some decoded
    /\ json_loads decoded = Some (JObj fields)
    /\ dict_lookup fields "csrfToken" = Some v.

(** The ways in which the [TOKEN] cookie can fail to be such a token. *)
Inductive malformed : option string -> Prop :=
| absent_cookie : malformed None
| wrong_part_count cookie :
    length (Str.split "." cookie) <> 3%nat -> malformed (Some cookie)
| payload_not_decoded cookie header payload signature :
    Str.split "." cookie = [header; payload; signature] ->
    urlsafe_b64decode (pad_to_multiple_of_4 payload) = None ->
    malformed (Some cookie)
| payload_not_json cookie header payload signature decoded :
    Str.split "." cookie = [header; payload; signature] ->
    urlsafe_b64decode (pad_to_multiple_of_4 payload) = Some decoded ->
    json_loads decoded = None ->
    malformed (Some cookie)
| payload_not_object cookie header payload signature decoded v :
    Str.split "." cookie = [header; payload; signature] ->
    urlsafe_b64decode (pad_to_multiple_of_4 payload) = Some decoded ->
    json_loads decoded = Some v ->
    (forall fields, v <> JObj fields) ->
    malformed (Some cookie)
| missing_field cookie header payload signature decoded fields :
    Str.split "." cookie = [header; payload; signature] ->
    urlsafe_b64decode (pad_to_multiple_of_4 payload) = Some decoded ->
    json_loads decoded = Some (JObj fields) ->
    dict_lookup fields "csrfToken" = None ->
    malformed (Some cookie).

End Cookies.

(** The client once the session holds [cookie] as its [TOKEN]. *)
Definition with_cookie (self : UnifiContentFilter) (cookie : option string) :=
  Client (host self) (username self) (password self) (site self) cookie
         (csrf_token self).

(** The world [w] after the diagnostics [ds] have been printed. *)
Definition put_stderrs (ds : list diag) (w : world) : world :=
  World (login_status w) (login_cookie w) (list_status w) (remote_filters w)
        (put_status w) (files w) (calls w) (stdout w) (stderr w ++ ds).

(** The world [w] with a controller that answers the login with [status]. *)
Definition with_login_status (status : Z) (w : world) : world :=
  World status (login_cookie w) (list_status w) (remote_filters w)
        (put_status w) (files w) (calls w) (stdout w) (stderr w).

(** The call [login] makes. *)
Definition login_call (self : UnifiContentFilter) : http_call :=
  POST (host self +:+ "/api/auth/login")
       [("username", JStr (username self)); ("password", JStr (password self))].

(** The client [main] creates. *)
Definition client_of (cfg : config) : UnifiContentFilter :=
  init (UNIFI_HOST cfg) (UNIFI_USERNAME cfg) (UNIFI_PASSWORD cfg)
       (SITE_NAME cfg).

(** A line that [read_filter_file] skips: blank or comment once stripped. *)
Definition blank_or_comment (line : string) : bool :=
  let line := Str.strip line in
  Str.is_empty line || Str.startswith "#" line.

(** What has been written to standard output, as text. *)
Definition stdout_text (w : world) : string := lines_text (stdout w).

(** The world [w] after the lines [l] have been printed. *)
Definition put_stdouts (l : list string) (w : world) : world :=
  World (login_status w) (login_cookie w) (list_status w) (remote_filters w)
        (put_status w) (files w) (calls w) (stdout w ++ l) (stderr w).

(** A file made of a comment, a line of blanks and an empty line. *)
Definition comments_only : string :=
  "# nothing here" +:+ nl +:+ "   " +:+ nl +:+ nl.

(** A controller that holds [three_filters] and sets a [TOKEN] cookie at
    login, and a file system with the single file [filters.txt]. *)
Definition example_world : world :=
  World 200 (Some "eyJhbGciOiJIUzI1NiJ9.eyJjc3JmVG9rZW4iOiJ0b2sifQ.c2ln")
        200 three_filters 200 {["filters.txt" := Text comments_only]} [] [] [].

(** The domains [read_filter_file] finds in a file whose text is [text]. *)
Definition domains_of_text (text : string) : list string :=
  List.filter is_domain_line (map Str.strip (Str.readlines text)).

(** The string [s] ends with the character [c]. *)
Definition ends_with (c : ascii) (s : string) : Prop :=
  exists t, s = t +:+ String c "".

Section Dispatch.
Context {lib : PyLib}.

(** The value [_extract_csrf_token] finds in the cookie [cookie]. *)
Definition cookie_token (cookie : option string) : json :=
  match cookie with
  | None => JNull
  | Some cookie =>
      match Str.split "." cookie with
      | [_; payload; _] =>
          match urlsafe_b64decode (pad_to_multiple_of_4 payload) with
          | None => JNull
          | Some decoded =>
              match json_loads decoded with
              | Some (JObj fields) =>
                  from_option id JNull (dict_lookup fields "csrfToken")
              | _ => JNull
              end
          end
      | _ => JNull
      end
  end.

(** The headers [update_content_filters] sends for the token [token]. *)
Definition csrf_headers (token : json) : dict :=
  if truthy token then [("X-CSRF-Token", token)] else [].

(** The client [main] works with once the login has returned in [w]. *)
Definition logged_in (cfg : config) (w : world) : UnifiContentFilter :=
  set_csrf_token (store_cookie (client_of cfg) (login_cookie w))
    (cookie_token (login_cookie w)).

(** The part of [main] that follows the login, inside the [try]. *)
Definition dispatch (unifi : UnifiContentFilter) (args : command) : M unit :=
  match args with
  | Fetch filter_name output =>
      content_filter ← find_filter unifi filter_name;
      match content_filter with
      | Some ((_ :: _) as content_filter) =>
          let domains :=
            from_option id (JArr [])
              (dict_lookup content_filter "block_list") in
          count ← py_len domains;
          print_err (Fetched count) ;;
          match output_given output with
          | Some path =>
              match as_strs domains with
              | Some domains => write_filter_file path domains filter_name
              | None => write_filter_file_untyped path domains filter_name
              end
          | None =>
              lines ← sorted_texts domains;
              for_each lines print_out
          end
      | _ =>
          print_err (FilterNotFound filter_name) ;;
          raise (SystemExit 1)
      end
  | Sync filter_name file =>
      domains ← read_filter_file file false;
      match domains with
      | _ :: _ =>
          success ← update_content_filters unifi filter_name domains;
          if negb success then raise (SystemExit 1) else mret tt
      | [] =>
          print_err NoDomains ;;
          raise (SystemExit 1)
      end
  end.

(** The end of the [fetch] branch, from [len(domains)] on, for a block
    list that is not a list of strings. *)
Definition emit_untyped (domains : json) (filter_name : string)
    (output : option string) : M unit :=
  count ← py_len domains;
  print_err (Fetched count) ;;
  match output_given output with
  | Some path => write_filter_file_untyped path domains filter_name
  | None => lines ← sorted_texts domains; for_each lines print_out
  end.

(** How the [except] clause of [main] and the interpreter turn the outcome
    of the [try] body into an exit status. *)
Definition finish (outcome : result unit * world) : Z * world :=
  match outcome with
  | (Ok _, w) => (0, w)
  | (Raise e, w) =>
      if is_RequestException e then (1, put_stderr (ErrorDiag e) w)
      else (exit_status (Raise e), w)
  end.

End Dispatch.

(** The PUT that [sync] makes for the filter [f] with id [filter_id]. *)
Definition put_call (unifi : UnifiContentFilter) (f : dict) (filter_id : json)
    (domains : list string) : http_call :=
  PUT (filter_url_prefix unifi) filter_id
      (dict_set f "block_list" (of_strs domains))
      (csrf_headers (csrf_token unifi)).

(** A file with a comment, a domain given twice and one with blanks around. *)
Definition domains_file : string :=
  "# my list" +:+ nl +:+ "z.com" +:+ nl +:+ nl +:+ "  a.com  " +:+ nl
  +:+ "z.com".

(** [example_world] with [domains_file] as second file. *)
Definition sync_world : world :=
  put_file "domains.txt" domains_file example_world.

(** The token cookie of [example_world] and the value it carries. *)
Definition example_cookie : string :=
  "eyJhbGciOiJIUzI1NiJ9.eyJjc3JmVG9rZW4iOiJ0b2sifQ.c2ln".

(** The world after [sync] of [domains.txt] has run in [sync_world]. *)
Definition after_sync : world :=
  snd (@run Ref.lib example_config (Sync "Samsung Adblock" "domains.txt")
         sync_world).


(** The world [w] with a controller that answers the listing with
    [status]. *)
Definition with_list_status (status : Z) (w : world) : world :=
  World (login_status w) (login_cookie w) status (remote_filters w)
        (put_status w) (files w) (calls w) (stdout w) (stderr w).

(** The text [s] with each line feed replaced by carriage return and line
    feed, as an editor with DOS line ends saves it. *)
Fixpoint to_crlf (s : string) : string :=
  match s with
  | EmptyString => EmptyString
  | String c r =>
      if Ascii.eqb c Str.LF then String Str.CR (String Str.LF (to_crlf r))
      else String c (to_crlf r)
  end.

(** The text [s] holds no carriage return. *)
Fixpoint has_cr (s : string) : bool :=
  match s with
  | EmptyString => false
  | String c r => Ascii.eqb c Str.CR || has_cr r
  end.

(** * Properties *)

(** ** Strings *)

Lemma str_app_nil_l (s : string) : "" +:+ s = s.
Proof. reflexivity. Qed.

Lemma str_app_cons (c : ascii) (s t : string) :
  String c s +:+ t = String c (s +:+ t).
Proof. reflexivity. Qed.

Lemma str_app_nil_r (s : string) : s +:+ "" = s.
Proof. induction s as [|c s IH]; [done|]. by rewrite str_app_cons, IH. Qed.

Lemma str_app_assoc (s t u : string) : (s +:+ t) +:+ u = s +:+ (t +:+ u).
Proof. induction s as [|c s IH]; [done|]. by rewrite !str_app_cons, IH. Qed.

Lemma isspace_LF : Str.isspace Str.LF = true.
Proof. reflexivity. Qed.

Lemma is_empty_true (s : string) : Str.is_empty s = true <-> s = "".
Proof. destruct s; split; intros; done. Qed.

Lemma is_eol_false (c : ascii) :
  Str.is_eol c = false ->
  Ascii.eqb c Str.LF = false /\ Ascii.eqb c Str.CR = false.
Proof. unfold Str.is_eol. intros H. by apply orb_false_iff in H. Qed.

(** A line without end-of-line character, written with its terminator, is
    read back as one line. *)
Lemma readlines_line (l rest : string) :
  Str.has_eol l = false ->
  Str.readlines (l +:+ nl +:+ rest) = (l +:+ nl) :: Str.readlines rest.
Proof.
  induction l as [|c l IH]; intros H.
  - reflexivity.
  - simpl in H. apply orb_false_iff in H as [Hc Hl].
    apply is_eol_false in Hc as [HLF HCR].
    rewrite !str_app_cons. simpl. rewrite HLF, HCR.
    by rewrite (IH Hl).
Qed.

(** Without carriage returns the lines are a partition of the text. *)
Lemma readlines_concat (s : string) :
  (forall c, In c (list_ascii_of_string s) -> c <> Str.CR) ->
  fold_right String.append "" (Str.readlines s) = s.
Proof.
  induction s as [|c s IH]; intros H; [done|].
  assert (Hs : fold_right String.append "" (Str.readlines s) = s).
  { apply IH. intros x Hx. apply H. by right. }
  assert (HCR : Ascii.eqb c Str.CR = false).
  { apply Ascii.eqb_neq, H. by left. }
  simpl. rewrite HCR.
  destruct (Ascii.eqb c Str.LF) eqn:HLF.
  - apply Ascii.eqb_eq in HLF as ->. simpl. by rewrite Hs.
  - destruct (Str.readlines s) as [|l ls]; simpl in *.
    + by rewrite <- Hs.
    + by rewrite str_app_cons, Hs.
Qed.

Lemma rstrip_app_nl (s : string) : Str.rstrip (s +:+ nl) = Str.rstrip s.
Proof.
  induction s as [|c s IH]; [done|].
  rewrite str_app_cons. simpl. by rewrite IH.
Qed.

Lemma lstrip_app_nl (s : string) :
  Str.lstrip (s +:+ nl) =
  if Str.is_empty (Str.lstrip s) then "" else Str.lstrip s +:+ nl.
Proof.
  induction s as [|c s IH]; [done|].
  rewrite str_app_cons. simpl. destruct (Str.isspace c); [done|].
  by rewrite str_app_cons.
Qed.

Lemma strip_app_nl (s : string) : Str.strip (s +:+ nl) = Str.strip s.
Proof.
  unfold Str.strip. rewrite lstrip_app_nl.
  destruct (Str.lstrip s) eqn:E; [done|].
  simpl Str.is_empty. cbv iota. apply rstrip_app_nl.
Qed.

(** Stripping keeps a first character that is not white space. *)
Lemma strip_cons (c : ascii) (s : string) :
  Str.isspace c = false -> Str.strip (String c s) = String c (Str.rstrip s).
Proof. intros H. unfold Str.strip. simpl. by rewrite H; simpl; rewrite H. Qed.

Lemma strip_nl : Str.strip nl = "".
Proof. reflexivity. Qed.

(** The accumulating loop of [read_filter_file] keeps, in order, the
    stripped lines that pass the test. *)
Lemma read_loop (lines acc : list string) :
  fold_left
    (fun (domains : list string) line =>
       let line := Str.strip line in
       if is_domain_line line then (domains ++ [line])%list else domains)
    lines acc
  = (acc ++ List.filter is_domain_line (map Str.strip lines))%list.
Proof.
  revert acc. induction lines as [|l lines IH]; intros acc; simpl.
  - by rewrite List.app_nil_r.
  - rewrite IH. destruct (is_domain_line (Str.strip l)); [|done].
    by rewrite <- List.app_assoc.
Qed.

(** ** The file codec *)

Lemma is_domain_line_alt (line : string) :
  is_domain_line line =
  negb (String.eqb line "") && negb (String.prefix "#" line).
Proof. by destruct line. Qed.

(** C3 (amended).  For every path and every state of the file system:
    when the path does not exist, [read_filter_file] returns the empty list
    and does not raise; when it is a file that can be opened and decoded as
    text, the result is the list of the file's lines, each stripped of
    surrounding white space, from which the lines that are then empty or
    start with [#] are removed: order and repetitions of the remaining
    lines are those of the file.  A path that exists but cannot be opened
    or decoded makes it raise the error of the opening or the decoding.
    Reading changes neither the files nor the calls made nor the standard
    output. *)
Theorem read_filter_file_lines (filepath : string) (silent : bool)
    (w : world) :
  exists w',
    read_filter_file filepath silent w =
      (match files w !! filepath with
       | None => Ok []
       | Some (Text text) =>
           Ok (List.filter
                 (fun line =>
                    negb (String.eqb line "")
                    && negb (String.prefix "#" line))
                 (map Str.strip (Str.readlines text)))
       | Some Unreadable => Raise OSError
       | Some Undecodable => Raise ValueError
       end, w')
    /\ files w' = files w /\ calls w' = calls w /\ stdout w' = stdout w.
Proof.
  unfold read_filter_file, path_lookup, read_text, mbind, M_bind.
  destruct (files w !! filepath) as [[text| |]|] eqn:E.
  - simpl. rewrite read_loop. simpl app.
    rewrite (List.filter_ext _ _ is_domain_line_alt).
    destruct silent; simpl; eexists; (split; [reflexivity|done]).
  - eexists; (split; [reflexivity|done]).
  - eexists; (split; [reflexivity|done]).
  - destruct silent; simpl; eexists; (split; [reflexivity|done]).
Qed.

(** C3 as stated fails: a path that exists need not be a text file; on a
    directory [open] raises and so does [read_filter_file]. *)
Lemma read_of_a_directory_raises :
  files directory_world !! "filters.d" = Some Unreadable
  /\ fst (read_filter_file "filters.d" true directory_world) = Raise OSError
  /\ fst (read_filter_file "filters.d" false directory_world) = Raise OSError.
Proof. by vm_compute. Qed.

Lemma write_loop (l : list string) (acc : string) :
  fold_left (fun f domain => f +:+ (domain +:+ nl)) l acc
  = acc +:+ lines_text l.
Proof.
  revert acc. induction l as [|d l IH]; intros acc; simpl.
  - by rewrite str_app_nil_r.
  - by rewrite IH, !str_app_assoc.
Qed.

(** The file holds the header, then the sorted domains one per line. *)
Lemma file_text_layout (domains : list string) (filter_name : string) :
  file_text domains filter_name
  = header filter_name +:+ lines_text (sorted domains).
Proof.
  unfold file_text, header. rewrite write_loop.
  by rewrite str_app_nil_l, !str_app_assoc.
Qed.

Lemma readlines_lines_text (l : list string) :
  Forall (fun d => Str.has_eol d = false) l ->
  Str.readlines (lines_text l) = map (fun d => d +:+ nl) l.
Proof.
  induction 1 as [|d l Hd _ IH]; [done|].
  simpl. by rewrite readlines_line, IH.
Qed.

Lemma has_eol_app (s t : string) :
  Str.has_eol (s +:+ t) = Str.has_eol s || Str.has_eol t.
Proof.
  induction s as [|c s IH]; [done|].
  rewrite str_app_cons. simpl. by rewrite IH, orb_assoc.
Qed.

Lemma readlines_file_text (domains : list string) (filter_name : string) :
  Str.has_eol filter_name = false ->
  Forall (fun d => Str.has_eol d = false) domains ->
  Str.readlines (file_text domains filter_name)
  = ("# " +:+ filter_name +:+ nl)
    :: ("# Lines starting with '#' are comments" +:+ nl)
    :: ("# Edit this file and run 'sync' to update the Unifi controller" +:+ nl)
    :: nl :: map (fun d => d +:+ nl) (sorted domains).
Proof.
  intros Hname Hdom. rewrite file_text_layout. unfold header.
  rewrite !str_app_assoc, <- (str_app_assoc "# " filter_name).
  rewrite readlines_line by (by rewrite has_eol_app, Hname).
  rewrite readlines_line by done.
  rewrite readlines_line by done.
  rewrite <- (str_app_nil_l (nl +:+ _)).
  rewrite readlines_line by done.
  rewrite readlines_lines_text; [by rewrite str_app_assoc|].
  unfold sorted. by rewrite merge_sort_Permutation.
Qed.

Lemma clean_domain_spec (d : string) :
  clean_domain d = true ->
  Str.strip d = d /\ is_domain_line d = true /\ Str.has_eol d = false.
Proof.
  unfold clean_domain, is_domain_line. intros H.
  repeat (apply andb_true_iff in H as [H ?]).
  apply String.eqb_eq in H.
  split; [done|]. split; [by apply andb_true_iff|by apply negb_true_iff].
Qed.

Lemma read_back (l : list string) :
  Forall (fun d => clean_domain d = true) l ->
  List.filter is_domain_line (map Str.strip (map (fun d => d +:+ nl) l)) = l.
Proof.
  induction 1 as [|d l Hd _ IH]; [done|].
  apply clean_domain_spec in Hd as (Hstrip & Hline & _).
  simpl. by rewrite strip_app_nl, Hstrip, Hline, IH.
Qed.

Lemma header_line_skipped (s : string) :
  is_domain_line (Str.strip ("# " +:+ s)) = false.
Proof.
  rewrite !str_app_cons, strip_cons by reflexivity.
  unfold is_domain_line, Str.startswith. simpl.
  by destruct (Str.is_empty _).
Qed.

(** C2 (amended).  For every path, every label without end-of-line
    character and every list of domains each of which is already stripped,
    is not empty, does not start with [#] and holds no end-of-line
    character, writing the list and reading the same path back returns the
    lexicographically sorted list. *)
Theorem write_then_read_sorted (filepath : string) (domains : list string)
    (filter_name : string) (w : world) :
  Forall (fun d => clean_domain d = true) domains ->
  Str.has_eol filter_name = false ->
  fst (write_then_read filepath domains filter_name w) = Ok (sorted domains).
Proof.
  intros Hdom Hname.
  unfold write_then_read, write_filter_file, write_text, print_err,
    read_filter_file, path_lookup, mbind, M_bind.
  simpl. rewrite lookup_insert_eq. simpl.
  rewrite read_loop, readlines_file_text; [|done|].
  - simpl map. simpl List.filter.
    rewrite header_line_skipped. simpl.
    f_equal. apply read_back. unfold sorted.
    by rewrite merge_sort_Permutation.
  - eapply Forall_impl; [exact Hdom|].
    intros d Hd. by apply clean_domain_spec in Hd as (_ & _ & ?).
Qed.

Lemma write_then_read_sorted_witness :
  Forall (fun d => clean_domain d = true) ["b.com"; "a.com"; "a.com"]
  /\ Str.has_eol "Samsung Adblock" = false
  /\ fst (write_then_read "filters.txt" ["b.com"; "a.com"; "a.com"]
            "Samsung Adblock" idle)
     = Ok ["a.com"; "a.com"; "b.com"].
Proof.
  split; [by repeat constructor|]. split; [reflexivity|].
  apply (write_then_read_sorted "filters.txt" ["b.com"; "a.com"; "a.com"]
           "Samsung Adblock" idle); [by repeat constructor|reflexivity].
Defined.

(** C2 as stated fails: a domain with a leading blank comes back stripped,
    and one that starts with [#] does not come back at all. *)
Lemma write_then_read_not_sorted :
  let domains := [" b.com"; "#a.com"; "c.com"] in
  fst (write_then_read "filters.txt" domains "Content Filter" idle)
  = Ok ["b.com"; "c.com"]
  /\ sorted domains = [" b.com"; "#a.com"; "c.com"]
  /\ fst (write_then_read "filters.txt" domains "Content Filter" idle)
     <> Ok (sorted domains).
Proof.
  assert (E : fst (write_then_read "filters.txt" [" b.com"; "#a.com"; "c.com"]
                     "Content Filter" idle) = Ok ["b.com"; "c.com"])
    by (vm_compute; reflexivity).
  cbv zeta. rewrite E. split; [done|]. split; [by vm_compute|].
  by vm_compute.
Qed.

(** ** The controller client *)

(** Unfolds the monadic plumbing of one step. *)
Ltac mrun :=
  unfold mbind, M_bind, mret, M_ret, raise, print_err, print_out,
    raise_for_status, session_get, session_put, session_post, py_subscript,
    try_except; simpl.

Lemma eq_str_spec (o : option json) (s : string) :
  eq_str (from_option id JNull o) s = true <-> o = Some (JStr s).
Proof.
  destruct o as [[]|]; simpl; try (split; intros; done).
  rewrite String.eqb_eq. split; intros; by simplify_eq.
Qed.

Lemma first_named_spec (filters : list dict) (filter_name : string) :
  match first_named filters filter_name with
  | Some f =>
      exists before after,
        filters = (before ++ f :: after)%list /\ has_name f filter_name
        /\ Forall (fun g => ~ has_name g filter_name) before
  | None => Forall (fun g => ~ has_name g filter_name) filters
  end.
Proof.
  induction filters as [|f filters IH]; simpl; [done|].
  destruct (eq_str _ filter_name) eqn:E.
  - apply eq_str_spec in E. by exists [], filters.
  - assert (~ has_name f filter_name) as Hf.
    { intros H. apply eq_str_spec in H. congruence. }
    destruct (first_named filters filter_name) as [g|].
    + destruct IH as (before & after & -> & Hg & Hb).
      exists (f :: before), after. by repeat split; [|constructor].
    + by constructor.
Qed.

(** A filter found by name has at least its name: it is never falsy. *)
Lemma first_named_not_empty (filters : list dict) (filter_name : string)
    (f : dict) :
  first_named filters filter_name = Some f -> exists fld flds, f = fld :: flds.
Proof.
  intros H. pose proof (first_named_spec filters filter_name) as S.
  rewrite H in S. destruct S as (_ & _ & _ & Hn & _).
  destruct f as [|fld flds]; [done|]. by exists fld, flds.
Qed.

Lemma find_filter_run (self : UnifiContentFilter) (filter_name : string)
    (w : world) :
  find_filter self filter_name w =
  if http_error (list_status w)
  then (Raise (HTTPError (list_status w)), log_call (GET (filters_url self)) w)
  else (Ok (first_named (remote_filters w) filter_name),
        log_call (GET (filters_url self)) w).
Proof.
  unfold find_filter, get_content_filters. mrun.
  by destruct (http_error (list_status w)).
Qed.

(** C4.  When the listing of the filters succeeds, [find_filter] returns
    the first filter of the collection whose [name] is exactly the
    requested string: it sits in the collection after filters none of which
    has that name.  It returns [None] when no filter of the collection has
    that name, in particular when the collection is empty. *)
Theorem find_filter_first_match (self : UnifiContentFilter)
    (filter_name : string) (w : world) :
  http_error (list_status w) = false ->
  exists r w',
    find_filter self filter_name w = (Ok r, w')
    /\ match r with
       | Some f =>
           exists before after,
             remote_filters w = (before ++ f :: after)%list
             /\ has_name f filter_name
             /\ Forall (fun g => ~ has_name g filter_name) before
       | None =>
           Forall (fun g => ~ has_name g filter_name) (remote_filters w)
       end
    /\ (remote_filters w = [] -> r = None).
Proof.
  intros Hok. rewrite find_filter_run, Hok.
  eexists _, _. split; [reflexivity|]. split; [apply first_named_spec|].
  by intros ->.
Qed.

Lemma find_filter_first_match_witness :
  http_error (list_status (with_filters three_filters idle)) = false
  /\ exists r w',
       find_filter example_client "Samsung Adblock"
         (with_filters three_filters idle) = (Ok r, w')
       /\ match r with
          | Some f =>
              exists before after,
                remote_filters (with_filters three_filters idle)
                = (before ++ f :: after)%list
                /\ has_name f "Samsung Adblock"
                /\ Forall (fun g => ~ has_name g "Samsung Adblock") before
          | None =>
              Forall (fun g => ~ has_name g "Samsung Adblock")
                (remote_filters (with_filters three_filters idle))
          end
       /\ (remote_filters (with_filters three_filters idle) = [] -> r = None).
Proof.
  split; [reflexivity|].
  apply (find_filter_first_match example_client "Samsung Adblock"
           (with_filters three_filters idle)).
  reflexivity.
Defined.

Lemma dict_lookup_set_eq (d : dict) (k : string) (v : json) :
  dict_lookup (dict_set d k v) k = Some v.
Proof.
  induction d as [|[k' v'] d IH]; simpl.
  - by rewrite String.eqb_refl.
  - destruct (String.eqb k' k) eqn:E; simpl; by rewrite E.
Qed.



#[local] Arguments dict_lookup : simpl never.
#[local] Arguments dict_set : simpl never.





Lemma headers_error_token (token : json) :
  headers_error (if truthy token then [("X-CSRF-Token", token)] else [])
  = token_error token.
Proof.
  unfold token_error. destruct (truthy token); [|done].
  simpl. by destruct (header_error token).
Qed.

Lemma update_content_filters_run (self : UnifiContentFilter)
    (filter_name : string) (domains : list string) (w : world) :
  http_error (list_status w) = false ->
  update_content_filters self filter_name domains w =
  let w1 := log_call (GET (filters_url self)) w in
  match first_named (remote_filters w) filter_name with
  | None => (Ok false, put_stderr (FilterNotFound filter_name) w1)
  | Some f =>
      match dict_lookup f "_id" with
      | None => (Raise (KeyError "_id"), w1)
      | Some filter_id =>
          let body := dict_set f "block_list" (of_strs domains) in
          let headers :=
            if truthy (csrf_token self)
            then [("X-CSRF-Token", csrf_token self)] else [] in
          match token_error (csrf_token self) with
          | Some e => (Raise e, w1)
          | None =>
              let w2 :=
                log_call (PUT (filter_url_prefix self) filter_id body headers)
                  w1 in
              if http_error (put_status w)
              then (Raise (HTTPError (put_status w)), w2)
              else (Ok true, put_stderr (Updated (length domains)) w2)
          end
      end
  end.
Proof.
  intros Hok. unfold update_content_filters.
  unfold mbind at 1. unfold M_bind at 1. rewrite find_filter_run, Hok.
  destruct (first_named _ _) as [f|] eqn:E; [|done].
  destruct (first_named_not_empty _ _ _ E) as (fld & flds & ->).
  mrun. destruct (dict_lookup (fld :: flds) "_id") as [filter_id|]; [|done].
  simpl. rewrite headers_error_token.
  destruct (token_error (csrf_token self)); [done|].
  simpl. by destruct (http_error (put_status w)).
Qed.




Lemma puts_log_GET (url : string) (w : world) :
  puts (log_call (GET url) w) = puts w.
Proof.
  unfold puts. simpl. rewrite List.filter_app. simpl. apply List.app_nil_r.
Qed.

(** C5.  When no filter of the collection has the requested name,
    [update_content_filters] makes the GET of the listing and no other
    call, so no PUT; the controller's filters and the local files are as
    before.  It never returns [True]: it prints the not-found diagnostic
    and returns [False], or, when the listing itself is answered with an
    HTTP error, raises that error. *)
Theorem update_unknown_name_makes_no_put (self : UnifiContentFilter)
    (filter_name : string) (domains : list string) (w : world) :
  first_named (remote_filters w) filter_name = None ->
  exists r w',
    update_content_filters self filter_name domains w = (r, w')
    /\ calls w' = (calls w ++ [GET (filters_url self)])%list
    /\ puts w' = puts w
    /\ remote_filters w' = remote_filters w
    /\ files w' = files w
    /\ (if http_error (list_status w)
        then r = Raise (HTTPError (list_status w)) /\ stderr w' = stderr w
        else r = Ok false
             /\ stderr w' = (stderr w ++ [FilterNotFound filter_name])%list).
Proof.
  intros Hnone.
  destruct (http_error (list_status w)) eqn:Hst.
  - unfold update_content_filters.
    unfold mbind at 1. unfold M_bind at 1. rewrite find_filter_run, Hst.
    eexists _, _. split; [reflexivity|].
    repeat split; try done. apply puts_log_GET.
  - rewrite update_content_filters_run, Hnone by done. cbv zeta.
    eexists _, _. split; [reflexivity|].
    repeat split; try done. apply puts_log_GET.
Qed.

Lemma update_unknown_name_makes_no_put_witness :
  first_named (remote_filters (with_filters three_filters idle)) "Kids" = None
  /\ exists r w',
       update_content_filters example_client "Kids" ["a.com"]
         (with_filters three_filters idle) = (r, w')
       /\ puts w' = [] /\ r = Ok false
       /\ stderr w' = [FilterNotFound "Kids"].
Proof.
  split; [reflexivity|].
  destruct (update_unknown_name_makes_no_put example_client "Kids" ["a.com"]
              (with_filters three_filters idle) eq_refl)
    as (r & w' & E & _ & Hputs & _ & _ & Hr).
  exists r, w'. split; [exact E|]. split; [exact Hputs|]. exact Hr.
Defined.

(** ** Extraction of the anti-forgery token *)

(** The padding computed by [_extract_csrf_token] pads to a multiple of
    four. *)
Lemma padding_pads_to_multiple_of_4 (payload : string) :
  (let padding := 4 - Str.len payload `mod` 4 in
   if negb (padding =? 4)
   then payload +:+ Str.replicate (Z.to_nat padding) "="
   else payload)
  = pad_to_multiple_of_4 payload.
Proof.
  unfold pad_to_multiple_of_4, Str.len. cbv zeta.
  replace (Z.of_nat (String.length payload) `mod` 4)
    with (Z.of_nat (Nat.modulo (String.length payload) 4))
    by (by rewrite Nat2Z.inj_mod).
  assert (H : (Nat.modulo (String.length payload) 4 < 4)%nat)
    by (apply Nat.mod_upper_bound; lia).
  destruct (Nat.modulo (String.length payload) 4) as [|[|[|[|m]]]];
    try lia; simpl; by rewrite ?str_app_nil_r.
Qed.

Lemma pad_to_multiple_of_4_length (payload : string) :
  Nat.modulo (String.length (pad_to_multiple_of_4 payload)) 4 = 0%nat.
Proof.
  unfold pad_to_multiple_of_4.
  assert (L : forall s t,
             String.length (s +:+ t) = (String.length s + String.length t)%nat).
  { intros s t. induction s as [|c s IH]; [done|].
    rewrite str_app_cons. simpl. by rewrite IH. }
  assert (R : forall n c, String.length (Str.replicate n c) = n).
  { intros n c. induction n as [|n IH]; [done|]. simpl. by rewrite IH. }
  rewrite L, R.
  pose proof (Nat.div_mod_eq (String.length payload) 4) as D.
  assert (H : (Nat.modulo (String.length payload) 4 < 4)%nat)
    by (apply Nat.mod_upper_bound; lia).
  destruct (Nat.modulo (String.length payload) 4) as [|[|[|[|m]]]] eqn:E;
    try lia; rewrite D at 1; simpl Nat.modulo at 2.
  - rewrite Nat.add_0_r, Nat.add_0_r, Nat.mul_comm. apply Nat.Div0.mod_mul.
  - replace (4 * (String.length payload / 4) + 1 + 3)%nat
      with ((String.length payload / 4 + 1) * 4)%nat by lia.
    apply Nat.Div0.mod_mul.
  - replace (4 * (String.length payload / 4) + 2 + 2)%nat
      with ((String.length payload / 4 + 1) * 4)%nat by lia.
    apply Nat.Div0.mod_mul.
  - replace (4 * (String.length payload / 4) + 3 + 1)%nat
      with ((String.length payload / 4 + 1) * 4)%nat by lia.
    apply Nat.Div0.mod_mul.
Qed.

Section Extraction.
Context {lib : PyLib}.

(** What [_extract_csrf_token] computes, with the exceptions resolved. *)
Lemma extract_csrf_token_run (self : UnifiContentFilter) (w : world) :
  _extract_csrf_token self w =
  match session_token self with
  | None => (Ok JNull, w)
  | Some cookie =>
      match Str.split "." cookie with
      | [_; payload; _] =>
          match urlsafe_b64decode (pad_to_multiple_of_4 payload) with
          | None => (Ok JNull, put_stderr (CsrfWarning ValueError) w)
          | Some decoded =>
              match json_loads decoded with
              | None => (Ok JNull, put_stderr (CsrfWarning ValueError) w)
              | Some (JObj fields) =>
                  (Ok (from_option id JNull (dict_lookup fields "csrfToken")),
                   w)
              | Some _ =>
                  (Ok JNull, put_stderr (CsrfWarning AttributeError) w)
              end
          end
      | _ => (Ok JNull, w)
      end
  end.
Proof.
  unfold _extract_csrf_token.
  destruct (session_token self) as [cookie|]; [|done].
  destruct cookie as [|c cookie]; [done|].
  cbn [Str.is_empty]. unfold try_except.
  destruct (Str.split "." (String c cookie)) as [|? [|payload [|? [|? ?]]]];
    try done.
  rewrite padding_pads_to_multiple_of_4.
  unfold mbind, M_bind.
  destruct (urlsafe_b64decode _) as [decoded|]; [|done]. simpl.
  destruct (json_loads decoded) as [[]|]; done.
Qed.

(** [_extract_csrf_token] always returns; it makes no call and leaves
    files and standard output alone. *)
Lemma extract_csrf_token_returns (self : UnifiContentFilter) (w : world) :
  exists v w',
    _extract_csrf_token self w = (Ok v, w')
    /\ calls w' = calls w /\ files w' = files w /\ stdout w' = stdout w
    /\ (stderr w' = stderr w
        \/ exists e, v = JNull /\ stderr w' = (stderr w ++ [CsrfWarning e])%list).
Proof.
  rewrite extract_csrf_token_run.
  destruct (session_token self) as [cookie|]; [|by eexists _, _; eauto 10].
  destruct (Str.split "." cookie) as [|? [|payload [|? [|? ?]]]];
    try by (eexists _, _; eauto 10).
  destruct (urlsafe_b64decode _) as [decoded|];
    [|by eexists _, _; eauto 10].
  destruct (json_loads decoded) as [[]|]; eexists _, _; eauto 10.
Qed.

(** C6 (amended).  [_extract_csrf_token] never raises.  When the [TOKEN]
    cookie is a three-part dot-separated token whose middle part, padded
    with [=] to a multiple of four characters, is decoded by
    [urlsafe_b64decode] to a document that [json.loads] reads as an object
    with the key [csrfToken], the value of that key is returned.  When the
    cookie is absent, has another number of parts, has a middle part that
    the base64 decoder rejects or decodes to a document that the JSON
    reader rejects, is not a JSON object, or has no [csrfToken], the
    result is [None]. *)
Theorem extract_csrf_token_spec (self : UnifiContentFilter) (w : world) :
  (exists v w', _extract_csrf_token self w = (Ok v, w'))
  /\ (forall cookie v,
        session_token self = Some cookie -> well_formed cookie v ->
        fst (_extract_csrf_token self w) = Ok v)
  /\ (malformed (session_token self) ->
      fst (_extract_csrf_token self w) = Ok JNull).
Proof.
  split; [|split].
  - destruct (extract_csrf_token_returns self w) as (v & w' & E & _).
    by exists v, w'.
  - intros cookie v Hc (h & p & s & decoded & fields & Hs & Hd & Hj & Hv).
    by rewrite extract_csrf_token_run, Hc, Hs, Hd, Hj, Hv.
  - intros Hm. rewrite extract_csrf_token_run.
    inversion Hm as [ E | cookie Hn E | cookie h p s Hs Hd E
                    | cookie h p s decoded Hs Hd Hj E
                    | cookie h p s decoded v Hs Hd Hj Hv E
                    | cookie h p s decoded fields Hs Hd Hj Hv E ].
    + done.
    + destruct (Str.split "." cookie) as [|? [|? [|? [|? ?]]]]; done.
    + by rewrite Hs, Hd.
    + by rewrite Hs, Hd, Hj.
    + rewrite Hs, Hd, Hj. destruct v; try done. by destruct (Hv fields).
    + by rewrite Hs, Hd, Hj, Hv.
Qed.

End Extraction.

Lemma extract_csrf_token_spec_witness :
  @well_formed Ref.lib "eyJhbGciOiJIUzI1NiJ9.eyJjc3JmVG9rZW4iOiJ0b2sifQ.c2ln"
    (JStr "tok")
  /\ @malformed Ref.lib (Some "eyJhbGciOiJIUzI1NiJ9.eyJjc3JmVG9rZW4iOiJ0b2sifQ")
  /\ fst (@_extract_csrf_token Ref.lib
            (with_cookie example_client
               (Some "eyJhbGciOiJIUzI1NiJ9.eyJjc3JmVG9rZW4iOiJ0b2sifQ.c2ln"))
            idle) = Ok (JStr "tok")
  /\ fst (@_extract_csrf_token Ref.lib
            (with_cookie example_client
               (Some "eyJhbGciOiJIUzI1NiJ9.eyJjc3JmVG9rZW4iOiJ0b2sifQ"))
            idle) = Ok JNull.
Proof.
  assert (W : @well_formed Ref.lib
                "eyJhbGciOiJIUzI1NiJ9.eyJjc3JmVG9rZW4iOiJ0b2sifQ.c2ln"
                (JStr "tok")).
  { eexists _, _, _, _, _.
    split; [reflexivity|]. split; [by vm_compute|].
    split; [by vm_compute|]. reflexivity. }
  assert (B : @malformed Ref.lib
                (Some "eyJhbGciOiJIUzI1NiJ9.eyJjc3JmVG9rZW4iOiJ0b2sifQ")).
  { apply wrong_part_count. by vm_compute. }
  split; [exact W|]. split; [exact B|]. split.
  - apply (proj1 (proj2 (@extract_csrf_token_spec Ref.lib
             (with_cookie example_client
                (Some "eyJhbGciOiJIUzI1NiJ9.eyJjc3JmVG9rZW4iOiJ0b2sifQ.c2ln"))
             idle)) _ _ eq_refl W).
  - apply (proj2 (proj2 (@extract_csrf_token_spec Ref.lib
             (with_cookie example_client
                (Some "eyJhbGciOiJIUzI1NiJ9.eyJjc3JmVG9rZW4iOiJ0b2sifQ"))
             idle)) B).
Defined.

(** C6 as stated fails: the middle part of this cookie is not base64, it
    holds four [!]; the decoder skips the characters that are not of its
    alphabet, the rest decodes to an object with [csrfToken], and its
    value is returned, not [None]. *)
Lemma extract_csrf_token_skips_invalid_base64 :
  let cookie := "h.eyJj!!!!c3JmVG9rZW4iOiJ0b2sifQ.s" in
  Str.split "." cookie = ["h"; "eyJj!!!!c3JmVG9rZW4iOiJ0b2sifQ"; "s"]
  /\ base64url_text "eyJj!!!!c3JmVG9rZW4iOiJ0b2sifQ" = false
  /\ fst (@_extract_csrf_token Ref.lib
            (with_cookie example_client (Some cookie)) idle)
     = Ok (JStr "tok").
Proof. by vm_compute. Qed.

(** ** Login *)

Lemma http_error_spec (status : Z) :
  http_error status = true <-> 400 <= status < 600.
Proof. unfold http_error. rewrite andb_true_iff. lia. Qed.

Lemma put_stderrs_nil (w : world) : put_stderrs [] w = w.
Proof. destruct w. unfold put_stderrs. simpl. by rewrite List.app_nil_r. Qed.

Section Login.
Context {lib : PyLib}.

Lemma extract_csrf_token_frame (self : UnifiContentFilter) (w : world) :
  exists v ds,
    _extract_csrf_token self w = (Ok v, put_stderrs ds w)
    /\ Forall (fun d => is_failure d = false) ds.
Proof.
  rewrite extract_csrf_token_run.
  assert (Q : forall v, exists v' ds,
             (Ok v, w) = (Ok v' : result json, put_stderrs ds w)
             /\ Forall (fun d => is_failure d = false) ds).
  { intros v. exists v, []. by rewrite put_stderrs_nil. }
  assert (W : forall e, exists v' ds,
             (Ok JNull, put_stderr (CsrfWarning e) w)
             = (Ok v' : result json, put_stderrs ds w)
             /\ Forall (fun d => is_failure d = false) ds).
  { intros e. exists JNull, [CsrfWarning e]. split; [done|].
    by repeat constructor. }
  destruct (session_token self) as [cookie|]; [|apply Q].
  destruct (Str.split "." cookie) as [|? [|payload [|? [|? ?]]]];
    try apply Q.
  destruct (urlsafe_b64decode _) as [decoded|]; [|apply W].
  destruct (json_loads decoded) as [[]|]; first [apply Q | apply W].
Qed.

(** On an HTTP error, [login] raises right after the POST. *)
Lemma login_raises (self : UnifiContentFilter) (w : world) :
  http_error (login_status w) = true ->
  login self w
  = (Raise (HTTPError (login_status w)), log_call (login_call self) w).
Proof. intros H. unfold login. mrun. by rewrite H. Qed.

(** Otherwise it returns the client holding the extracted token, having
    made the POST and printed no failure. *)
Lemma login_returns (self : UnifiContentFilter) (w : world) :
  http_error (login_status w) = false ->
  exists token ds,
    login self w
    = (Ok (set_csrf_token (store_cookie self (login_cookie w)) token),
       put_stderrs ds (log_call (login_call self) w))
    /\ Forall (fun d => is_failure d = false) ds.
Proof.
  intros H. unfold login. mrun. rewrite H.
  unfold mret, M_ret. cbv beta iota.
  destruct (extract_csrf_token_frame
              (store_cookie self (login_cookie w))
              (log_call (login_call self) w)) as (token & ds & E & Hds).
  unfold login_call in E. simpl in E. rewrite E.
  exists token, (ds ++ [LoggedIn (truthy token)])%list. split.
  - destruct (truthy token); unfold put_stderrs, put_stderr; simpl;
      by rewrite <- List.app_assoc.
  - apply Forall_app. split; [done|]. by repeat constructor.
Qed.

End Login.

(** ** The commands *)

Section Commands.
Context {lib : PyLib}.
Variable cfg : config.

Lemma run_login_error (args : command) (w : world) :
  http_error (login_status w) = true ->
  run cfg args w
  = (1, put_stderr (ErrorDiag (HTTPError (login_status w)))
          (log_call (login_call (client_of cfg)) w)).
Proof.
  intros H. unfold run, main, try_except.
  unfold mbind at 1. unfold M_bind at 1.
  fold (client_of cfg). by rewrite login_raises.
Qed.

(** C7 (amended).  When the answer to the POST of the credentials is a
    client or server error, that is a status from 400 to 599, [login]
    raises [HTTPError]; whatever the command, the run then makes no other
    call, prints the error on the error stream and exits with status 1. *)
Theorem login_http_error_aborts (args : command) (w : world) :
  400 <= login_status w < 600 ->
  fst (login (client_of cfg) w) = Raise (HTTPError (login_status w))
  /\ exists w',
       run cfg args w = (1, w')
       /\ calls w' = (calls w ++ [login_call (client_of cfg)])%list
       /\ stderr w'
          = (stderr w ++ [ErrorDiag (HTTPError (login_status w))])%list
       /\ stdout w' = stdout w /\ files w' = files w.
Proof.
  intros H. apply http_error_spec in H.
  split; [by rewrite login_raises|].
  rewrite run_login_error by done. by eexists.
Qed.

End Commands.

Lemma login_http_error_aborts_witness :
  400 <= login_status (with_login_status 401 idle) < 600
  /\ fst (@login Ref.lib (client_of example_config)
            (with_login_status 401 idle))
     = Raise (HTTPError 401)
  /\ exists w',
       @run Ref.lib example_config (Sync "Samsung Adblock" "filters.txt")
         (with_login_status 401 idle) = (1, w')
       /\ calls w' = [login_call (client_of example_config)]
       /\ stderr w' = [ErrorDiag (HTTPError 401)]
       /\ stdout w' = [] /\ files w' = ∅.
Proof.
  split; [by vm_compute|].
  apply (@login_http_error_aborts Ref.lib example_config
           (Sync "Samsung Adblock" "filters.txt")
           (with_login_status 401 idle)).
  by vm_compute.
Defined.

(** C7 as stated fails: 304 is not a 2xx status, yet [raise_for_status]
    lets it pass; [login] returns and the run goes on to exit with 0. *)
Lemma login_accepts_status_304 :
  let w := with_login_status 304 (with_filters three_filters idle) in
  ~ (200 <= login_status w < 300)
  /\ (exists self, fst (@login Ref.lib (client_of example_config) w) = Ok self)
  /\ fst (@run Ref.lib example_config (Fetch "Samsung Adblock" None) w) = 0.
Proof.
  cbv zeta. split; [simpl; lia|]. split; [|by vm_compute].
  eexists. by vm_compute.
Qed.

Lemma read_filter_file_run (filepath : string) (w : world) :
  read_filter_file filepath false w =
  match files w !! filepath with
  | None => (Ok [], put_stderr (FileNotFound filepath) w)
  | Some (Text text) =>
      let domains :=
        List.filter is_domain_line (map Str.strip (Str.readlines text)) in
      (Ok domains, put_stderr (ReadDomains (length domains) filepath) w)
  | Some Unreadable => (Raise OSError, w)
  | Some Undecodable => (Raise ValueError, w)
  end.
Proof.
  unfold read_filter_file, path_lookup, read_text, mbind, M_bind.
  destruct (files w !! filepath) as [[text| |]|]; try done.
  simpl. by rewrite read_loop.
Qed.

Lemma skipped_lines (lines : list string) :
  Forall (fun line => blank_or_comment line = true) lines ->
  List.filter is_domain_line (map Str.strip lines) = [].
Proof.
  induction 1 as [|l lines Hl _ IH]; [done|].
  simpl. rewrite IH. unfold blank_or_comment in Hl. unfold is_domain_line.
  apply orb_true_iff in Hl as [-> | ->]; [done|]. by rewrite andb_false_r.
Qed.

Lemma for_each_print_out (l : list string) (w : world) :
  for_each l print_out w = (Ok tt, put_stdouts l w).
Proof.
  revert w. induction l as [|x l IH]; intros w.
  - simpl. unfold mret, M_ret. f_equal. destruct w. unfold put_stdouts.
    simpl. by rewrite List.app_nil_r.
  - simpl. unfold mbind, M_bind, print_out. rewrite IH.
    unfold put_stdouts, put_stdout. simpl. by rewrite <- List.app_assoc.
Qed.

Lemma strs_of_items_strs (l : list string) :
  strs_of_items (map JStr l) = Some l.
Proof. induction l as [|x l IH]; [done|]. simpl. by rewrite IH. Qed.

Lemma file_text_nil (filter_name : string) :
  file_text [] filter_name = header filter_name.
Proof. rewrite file_text_layout. apply str_app_nil_r. Qed.

Lemma puts_log_POST (url : string) (body : dict) (w : world) :
  puts (log_call (POST url body) w) = puts w.
Proof.
  unfold puts. simpl. rewrite List.filter_app. simpl. apply List.app_nil_r.
Qed.

Lemma strs_of_items_length (l : list json) (strs : list string) :
  strs_of_items l = Some strs -> length l = length strs.
Proof.
  revert strs. induction l as [|x l IH]; intros strs.
  - by intros [= <-].
  - simpl. destruct x; try done.
    destruct (strs_of_items l) as [r|]; [|done].
    intros [= <-]. simpl. by rewrite (IH r).
Qed.

(** On a list of strings the sort is that of the strings. *)
Lemma sorted_texts_items {lib : PyLib} (l : list json) (strs : list string)
    (w : world) :
  strs_of_items l = Some strs ->
  sorted_texts (JArr l) w = (Ok (sorted strs), w).
Proof.
  intros H. unfold sorted_texts, py_iter, mbind, M_bind, mret, M_ret.
  by rewrite H.
Qed.

Lemma sorted_texts_strs {lib : PyLib} (l : list string) (w : world) :
  sorted_texts (JArr (map JStr l)) w = (Ok (sorted l), w).
Proof. apply sorted_texts_items, strs_of_items_strs. Qed.

Section Runs.
Context {lib : PyLib}.
Variable cfg : config.

(** C8.  When the file named on the command line exists and each of its
    lines is blank or a comment once stripped, [sync] exits with status
    1, prints at least one failure diagnostic on the error stream --
    after a successful login the last one says that there are no domains
    to sync -- and its only call is the POST of the login: no listing and
    no PUT, [update_content_filters] is not reached. *)
Theorem sync_without_domains_fails (filter_name file text : string)
    (w : world) :
  files w !! file = Some (Text text) ->
  Forall (fun line => blank_or_comment line = true) (Str.readlines text) ->
  exists w' ds,
    run cfg (Sync filter_name file) w = (1, w')
    /\ calls w' = (calls w ++ [login_call (client_of cfg)])%list
    /\ puts w' = puts w
    /\ stderr w' = (stderr w ++ ds)%list
    /\ Exists (fun d => is_failure d = true) ds
    /\ (http_error (login_status w) = false -> last ds = Some NoDomains).
Proof.
  intros Hfile Hlines.
  destruct (http_error (login_status w)) eqn:Hst.
  - rewrite run_login_error by done.
    eexists _, [_]. split; [reflexivity|]. simpl.
    repeat split; try done.
    + apply puts_log_POST.
    + by constructor.
  - unfold run, main, try_except.
    unfold mbind at 1. unfold M_bind at 1. fold (client_of cfg).
    destruct (login_returns (client_of cfg) w Hst) as (token & ds & -> & Hds).
    unfold mbind at 1. unfold M_bind at 1.
    rewrite read_filter_file_run. simpl files. rewrite Hfile.
    cbv zeta. rewrite skipped_lines by done.
    mrun. eexists _, (ds ++ [ReadDomains 0 file; NoDomains])%list.
    split; [reflexivity|]. simpl.
    repeat split.
    + apply puts_log_POST.
    + by rewrite <- !List.app_assoc.
    + apply Exists_app. right. by repeat constructor.
    + intros _. by rewrite last_app.
Qed.

(** C9 (amended).  After a successful login and listing, when the name
    resolves to a filter whose [block_list] is the list of strings
    [domains], [fetch]
    without output path exits with status 0 and appends to the standard
    output one line for each domain: together they are a permutation of
    [domains] in increasing lexicographic order.  No file is written. *)
Theorem fetch_prints_sorted (filter_name : string) (w : world) (f : dict)
    (domains : list string) :
  http_error (login_status w) = false ->
  http_error (list_status w) = false ->
  first_named (remote_filters w) filter_name = Some f ->
  dict_lookup f "block_list" = Some (JArr (map JStr domains)) ->
  exists w' printed,
    run cfg (Fetch filter_name None) w = (0, w')
    /\ stdout w' = (stdout w ++ printed)%list
    /\ printed = sorted domains
    /\ Sorted String.le printed
    /\ printed ≡ₚ domains
    /\ files w' = files w.
Proof.
  intros Hlogin Hlist Hf Hb.
  unfold run, main, try_except.
  unfold mbind at 1. unfold M_bind at 1. fold (client_of cfg).
  destruct (login_returns (client_of cfg) w Hlogin) as (token & ds & -> & _).
  unfold mbind at 1. unfold M_bind at 1.
  rewrite find_filter_run. simpl list_status. rewrite Hlist.
  change (remote_filters (put_stderrs ds (log_call _ w)))
    with (remote_filters w).
  rewrite Hf.
  destruct (first_named_not_empty _ _ _ Hf) as (fld & flds & ->).
  rewrite Hb. simpl from_option.
  mrun. rewrite sorted_texts_strs.
  rewrite for_each_print_out. simpl.
  eexists _, (sorted domains). split; [reflexivity|]. simpl.
  repeat split.
  - apply Sorted_merge_sort, _.
  - apply merge_sort_Permutation.
Qed.

(** C10.  After a successful login and listing, when the name resolves to
    a filter that has no [block_list] key, [fetch] does not raise: it
    exits with status 0 and prints no failure.  Nothing is written to the
    standard output; with an output path the file at that path holds the
    header alone, and without one no file changes. *)
Theorem fetch_without_block_list (filter_name : string)
    (output : option string) (w : world) (f : dict) :
  http_error (login_status w) = false ->
  http_error (list_status w) = false ->
  first_named (remote_filters w) filter_name = Some f ->
  dict_lookup f "block_list" = None ->
  exists w' ds,
    run cfg (Fetch filter_name output) w = (0, w')
    /\ stdout w' = stdout w
    /\ files w' =
       match output_given output with
       | Some path => <[path := Text (header filter_name)]> (files w)
       | None => files w
       end
    /\ stderr w' = (stderr w ++ ds)%list
    /\ Forall (fun d => is_failure d = false) ds.
Proof.
  intros Hlogin Hlist Hf Hb.
  unfold run, main, try_except.
  unfold mbind at 1. unfold M_bind at 1. fold (client_of cfg).
  destruct (login_returns (client_of cfg) w Hlogin)
    as (token & ds & -> & Hds).
  unfold mbind at 1. unfold M_bind at 1.
  rewrite find_filter_run. simpl list_status. rewrite Hlist.
  change (remote_filters (put_stderrs ds (log_call _ w)))
    with (remote_filters w).
  rewrite Hf.
  destruct (first_named_not_empty _ _ _ Hf) as (fld & flds & ->).
  rewrite Hb. simpl from_option. mrun.
  destruct (output_given output) as [path|].
  - unfold write_filter_file, write_text. mrun.
    eexists _, (ds ++ [Fetched 0; WroteDomains 0 path])%list.
    split; [reflexivity|]. simpl. rewrite file_text_nil.
    repeat split; try done.
    + by rewrite <- !List.app_assoc.
    + apply Forall_app. split; [done|]. by repeat constructor.
  - eexists _, (ds ++ [Fetched 0])%list.
    split; [reflexivity|]. simpl.
    repeat split; try done.
    + by rewrite <- !List.app_assoc.
    + apply Forall_app. split; [done|]. by repeat constructor.
Qed.

End Runs.

Lemma sync_without_domains_fails_witness :
  files example_world !! "filters.txt" = Some (Text comments_only)
  /\ Forall (fun line => blank_or_comment line = true)
       (Str.readlines comments_only)
  /\ exists w' ds,
       @run Ref.lib example_config (Sync "Samsung Adblock" "filters.txt")
         example_world = (1, w')
       /\ calls w' = [login_call (client_of example_config)]
       /\ puts w' = []
       /\ stderr w' = ds
       /\ Exists (fun d => is_failure d = true) ds
       /\ (http_error (login_status example_world) = false ->
           last ds = Some NoDomains).
Proof.
  split; [reflexivity|]. split; [by repeat constructor|].
  apply (@sync_without_domains_fails Ref.lib example_config "Samsung Adblock"
           "filters.txt" comments_only example_world).
  - reflexivity.
  - by repeat constructor.
Defined.

Lemma fetch_prints_sorted_witness :
  http_error (login_status example_world) = false
  /\ http_error (list_status example_world) = false
  /\ exists f,
       first_named (remote_filters example_world) "Samsung Adblock" = Some f
       /\ dict_lookup f "block_list" = Some (JArr (map JStr ["b.com"; "a.com"]))
       /\ exists w',
            @run Ref.lib example_config (Fetch "Samsung Adblock" None)
              example_world = (0, w')
            /\ stdout w' = ["a.com"; "b.com"]
            /\ stdout_text w' = "a.com" +:+ nl +:+ "b.com" +:+ nl.
Proof.
  split; [reflexivity|]. split; [reflexivity|].
  eexists. split; [reflexivity|]. split; [reflexivity|].
  destruct (@fetch_prints_sorted Ref.lib example_config "Samsung Adblock"
              example_world _ ["b.com"; "a.com"]
              eq_refl eq_refl eq_refl eq_refl)
    as (w' & printed & E & Hout & -> & _).
  exists w'. split; [exact E|]. unfold stdout_text. rewrite Hout.
  split; reflexivity.
Defined.

(** C9 as stated fails: the name resolves to a filter whose [block_list]
    is [null]; [len] raises a [TypeError] that [main] does not catch, the
    exit status is 1 and nothing is printed on the standard output. *)
Lemma fetch_of_a_null_block_list_fails :
  let w := with_filters [filter_with_null_block_list] example_world in
  let outcome :=
    @run Ref.lib example_config (Fetch "Samsung Adblock" None) w in
  http_error (login_status w) = false
  /\ http_error (list_status w) = false
  /\ first_named (remote_filters w) "Samsung Adblock"
     = Some filter_with_null_block_list
  /\ dict_lookup filter_with_null_block_list "block_list" = Some JNull
  /\ fst outcome = 1
  /\ stdout (snd outcome) = [].
Proof. by vm_compute. Qed.

Lemma fetch_without_block_list_witness :
  http_error (login_status example_world) = false
  /\ http_error (list_status example_world) = false
  /\ exists f,
       first_named (remote_filters example_world) "samsung adblock" = Some f
       /\ dict_lookup f "block_list" = None
       /\ (exists w' ds,
             @run Ref.lib example_config (Fetch "samsung adblock" None)
               example_world = (0, w')
             /\ stdout w' = []
             /\ files w' = files example_world
             /\ stderr w' = ds
             /\ Forall (fun d => is_failure d = false) ds)
       /\ (exists w' ds,
             @run Ref.lib example_config
               (Fetch "samsung adblock" (Some "out.txt")) example_world
             = (0, w')
             /\ stdout w' = []
             /\ files w'
                = <["out.txt" := Text (header "samsung adblock")]>
                    (files example_world)
             /\ stderr w' = ds
             /\ Forall (fun d => is_failure d = false) ds).
Proof.
  split; [reflexivity|]. split; [reflexivity|].
  eexists. split; [reflexivity|]. split; [reflexivity|]. split.
  - apply (@fetch_without_block_list Ref.lib example_config "samsung adblock"
             None example_world _ eq_refl eq_refl eq_refl eq_refl).
  - apply (@fetch_without_block_list Ref.lib example_config "samsung adblock"
             (Some "out.txt") example_world _ eq_refl eq_refl eq_refl eq_refl).
Defined.


(** * Further properties of the program *)

(** ** The constructor *)

Lemma rstrip_char_spec (x : ascii) (s : string) :
  (exists k, s = Str.rstrip_char x s +:+ Str.replicate k x)
  /\ ~ ends_with x (Str.rstrip_char x s).
Proof.
  induction s as [|c s [[k Hk] Hend]]; simpl.
  - split; [by exists 0%nat|]. intros [[|? ?] H]; done.
  - destruct (Ascii.eqb c x && Str.is_empty (Str.rstrip_char x s)) eqn:E.
    + apply andb_true_iff in E as [Hc He].
      apply Ascii.eqb_eq in Hc as ->. apply is_empty_true in He.
      split; [|intros [[|? ?] H]; done].
      exists (S k). rewrite Hk at 1. by rewrite He.
    + split; [exists k; by rewrite str_app_cons, <- Hk|].
      intros [[|c' t] H].
      * rewrite str_app_nil_l in H. injection H as -> He.
        by rewrite Ascii.eqb_refl, He in E.
      * rewrite str_app_cons in H. injection H as _ H.
        apply Hend. by exists t.
Qed.

(** X1.  The host kept by the constructor is the given host without its
    trailing slashes: the given host is the kept one followed by slashes
    only, and the kept one does not end with a slash, so that the URLs
    built from it have a single slash after the host.  A host that does
    not end with a slash is kept as it is. *)
Theorem init_host_has_no_trailing_slash (h u p s : string) :
  (exists k, h = host (init h u p s) +:+ Str.replicate k "/")
  /\ ~ ends_with "/" (host (init h u p s))
  /\ (~ ends_with "/" h -> host (init h u p s) = h).
Proof.
  destruct (rstrip_char_spec "/" h) as [[k Hk] Hend].
  split; [by exists k|]. split; [done|].
  intros Hh. simpl. destruct k as [|k].
  - rewrite Hk at 2. simpl. by rewrite str_app_nil_r.
  - destruct Hh. exists (Str.rstrip_char "/" h +:+ Str.replicate k "/").
    rewrite Hk at 1. rewrite str_app_assoc. f_equal.
    clear. induction k as [|k IH]; [done|].
    simpl. rewrite str_app_cons. by rewrite <- IH.
Qed.

Lemma init_host_has_no_trailing_slash_witness :
  ~ ends_with "/" "https://unifi.local"
  /\ host (init "https://unifi.local" "admin" "password" "default")
     = "https://unifi.local".
Proof.
  assert (H : ~ ends_with "/" "https://unifi.local")
    by exact (proj2 (rstrip_char_spec "/" "https://unifi.local")).
  split; [exact H|].
  exact (proj2 (proj2 (init_host_has_no_trailing_slash
                         "https://unifi.local" "admin" "password" "default"))
           H).
Defined.

(** ** What the file codec reads and writes *)

Lemma rstrip_idempotent (s : string) : Str.rstrip (Str.rstrip s) = Str.rstrip s.
Proof.
  induction s as [|c s IH]; [done|]. simpl.
  destruct (Str.isspace c && Str.is_empty (Str.rstrip s)) eqn:E; [done|].
  simpl. by rewrite IH, E.
Qed.

Lemma lstrip_head (s : string) :
  Str.lstrip s = ""
  \/ exists c r, Str.lstrip s = String c r /\ Str.isspace c = false.
Proof.
  induction s as [|c s IH]; [by left|]. simpl.
  destruct (Str.isspace c) eqn:E; [done|]. right. by exists c, s.
Qed.

Lemma strip_idempotent (s : string) : Str.strip (Str.strip s) = Str.strip s.
Proof.
  unfold Str.strip at 2 3.
  destruct (lstrip_head s) as [-> | (c & r & -> & Hc)]; [done|].
  simpl. rewrite Hc. simpl. rewrite strip_cons by done.
  by rewrite rstrip_idempotent.
Qed.

Lemma has_eol_lstrip (s : string) :
  Str.has_eol s = false -> Str.has_eol (Str.lstrip s) = false.
Proof.
  induction s as [|c s IH]; [done|]. simpl. intros H.
  apply orb_false_iff in H as [Hc Hs].
  destruct (Str.isspace c); [by apply IH|]. simpl. by rewrite Hc, Hs.
Qed.

Lemma has_eol_rstrip (s : string) :
  Str.has_eol s = false -> Str.has_eol (Str.rstrip s) = false.
Proof.
  induction s as [|c s IH]; [done|]. simpl. intros H.
  apply orb_false_iff in H as [Hc Hs].
  destruct (Str.isspace c && Str.is_empty (Str.rstrip s)); [done|].
  simpl. by rewrite Hc, IH.
Qed.

(** A line handed out by the iteration is free of end-of-line characters
    but for a final line feed. *)
Lemma readlines_shape (s : string) :
  Forall (fun l => exists b, Str.has_eol b = false /\ (l = b \/ l = b +:+ nl))
         (Str.readlines s).
Proof.
  assert (N : exists b, Str.has_eol b = false /\ (nl = b \/ nl = b +:+ nl))
    by (exists ""; split; [done|by right]).
  induction s as [|c s IH]; [constructor|]. simpl.
  destruct (Ascii.eqb c Str.LF) eqn:HLF; [by constructor|].
  destruct (Ascii.eqb c Str.CR) eqn:HCR.
  - destruct s as [|c' s']; [by repeat constructor|].
    destruct (Ascii.eqb c' Str.LF) eqn:HLF'; [|by constructor].
    simpl in IH. by rewrite HLF' in IH.
  - assert (Hc : Str.is_eol c = false) by (unfold Str.is_eol; by rewrite HLF, HCR).
    destruct (Str.readlines s) as [|l ls].
    + repeat constructor. exists (String c ""). split; [|by left].
      simpl. by rewrite Hc.
    + inversion IH as [|? ? (b & Hb & Hl) Hls]; subst. constructor; [|done].
      exists (String c b). split; [simpl; by rewrite Hc, Hb|].
      destruct Hl as [-> | ->]; [by left|by right].
Qed.

Lemma strip_line_has_no_eol (l : string) :
  (exists b, Str.has_eol b = false /\ (l = b \/ l = b +:+ nl)) ->
  Str.has_eol (Str.strip l) = false.
Proof.
  intros (b & Hb & [-> | ->]); rewrite ?strip_app_nl;
    by apply has_eol_rstrip, has_eol_lstrip.
Qed.

Lemma domains_of_text_clean (text : string) :
  Forall (fun d => clean_domain d = true) (domains_of_text text).
Proof.
  unfold domains_of_text.
  pose proof (readlines_shape text) as H.
  induction H as [|l ls Hl _ IH]; [constructor|]. simpl.
  destruct (is_domain_line (Str.strip l)) eqn:E; [|done].
  constructor; [|done]. unfold clean_domain.
  unfold is_domain_line in E. apply andb_true_iff in E as [E1 E2].
  rewrite strip_idempotent, String.eqb_refl, E1, E2.
  by rewrite strip_line_has_no_eol.
Qed.

(** X2.  Whatever text the file holds, each domain that
    [read_filter_file] returns is stripped, not empty, does not start with
    [#] and holds no end-of-line character.  The call raises only when the
    path exists and cannot be read as text: with the error of [open] when
    it cannot be opened or read, with the error of the decoder when its
    bytes are no text. *)
Theorem read_filter_file_returns_clean_domains (filepath : string)
    (silent : bool) (w : world) :
  match fst (read_filter_file filepath silent w) with
  | Ok domains =>
      Forall (fun d =>
                Str.strip d = d /\ d <> "" /\ Str.startswith "#" d = false
                /\ Str.has_eol d = false) domains
  | Raise e =>
      (files w !! filepath = Some Unreadable /\ e = OSError)
      \/ (files w !! filepath = Some Undecodable /\ e = ValueError)
  end.
Proof.
  assert (C : forall l, Forall (fun d => clean_domain d = true) l ->
              Forall (fun d => Str.strip d = d /\ d <> ""
                        /\ Str.startswith "#" d = false
                        /\ Str.has_eol d = false) l).
  { intros l Hl. eapply Forall_impl; [exact Hl|].
    intros d Hd. unfold clean_domain in Hd.
    apply andb_true_iff in Hd as [Hd H4].
    apply andb_true_iff in Hd as [Hd H3].
    apply andb_true_iff in Hd as [H1 H2].
    split; [by apply String.eqb_eq|]. split; [by intros ->|].
    split; by apply negb_true_iff. }
  unfold read_filter_file, path_lookup, read_text, mbind, M_bind.
  destruct (files w !! filepath) as [[text| |]|].
  - simpl. rewrite read_loop. simpl app.
    destruct silent; simpl; apply C, domains_of_text_clean.
  - simpl. by left.
  - simpl. by right.
  - destruct silent; simpl; constructor.
Qed.

(** ** The run after the login *)

Section Dispatching.
Context {lib : PyLib}.
Variable cfg : config.

Lemma extract_csrf_token_value (self : UnifiContentFilter) (w : world) :
  exists ds,
    _extract_csrf_token self w
    = (Ok (cookie_token (session_token self)), put_stderrs ds w)
    /\ Forall (fun d => glyph_of d = Plain) ds.
Proof.
  rewrite extract_csrf_token_run. unfold cookie_token.
  assert (Q : forall v, exists ds,
             (Ok v, w) = (Ok v : result json, put_stderrs ds w)
             /\ Forall (fun d => glyph_of d = Plain) ds).
  { intros v. exists []. by rewrite put_stderrs_nil. }
  assert (W : forall e, exists ds,
             (Ok JNull, put_stderr (CsrfWarning e) w)
             = (Ok JNull : result json, put_stderrs ds w)
             /\ Forall (fun d => glyph_of d = Plain) ds).
  { intros e. exists [CsrfWarning e]. split; [done|]. by repeat constructor. }
  destruct (session_token self) as [cookie|]; [|apply Q].
  destruct (Str.split "." cookie) as [|? [|payload [|? [|? ?]]]];
    try apply Q.
  destruct (urlsafe_b64decode _) as [decoded|]; [|apply W].
  destruct (json_loads decoded) as [[]|]; first [apply Q | apply W].
Qed.

Lemma plain_is_no_failure (ds : list diag) :
  Forall (fun d => glyph_of d = Plain) ds ->
  Forall (fun d => is_failure d = false) ds.
Proof.
  intros H. eapply Forall_impl; [exact H|].
  intros d Hd. unfold is_failure. by rewrite Hd.
Qed.

Lemma well_formed_cookie_token (cookie : string) (v : json) :
  well_formed cookie v -> cookie_token (Some cookie) = v.
Proof.
  intros (h & p & s & decoded & fields & Hs & Hd & Hj & Hv).
  unfold cookie_token. by rewrite Hs, Hd, Hj, Hv.
Qed.

Lemma malformed_cookie_token (cookie : option string) :
  malformed cookie -> cookie_token cookie = JNull.
Proof.
  unfold cookie_token.
  inversion 1 as [ | c Hn | c h p s Hs Hd | c h p s decoded Hs Hd Hj
                 | c h p s decoded v Hs Hd Hj Hv
                 | c h p s decoded fields Hs Hd Hj Hv ]; subst.
  - done.
  - destruct (Str.split "." c) as [|? [|? [|? [|? ?]]]]; done.
  - by rewrite Hs, Hd.
  - by rewrite Hs, Hd, Hj.
  - rewrite Hs, Hd, Hj. destruct v; try done. by destruct (Hv fields).
  - by rewrite Hs, Hd, Hj, Hv.
Qed.

Lemma login_value (self : UnifiContentFilter) (w : world) :
  http_error (login_status w) = false ->
  let self1 := store_cookie self (login_cookie w) in
  let token := cookie_token (session_token self1) in
  exists ds,
    login self w
    = (Ok (set_csrf_token self1 token),
       put_stderrs (ds ++ [LoggedIn (truthy token)])
         (log_call (login_call self) w))
    /\ Forall (fun d => glyph_of d = Plain) ds.
Proof.
  intros H. cbv zeta. unfold login. mrun. rewrite H.
  unfold mret, M_ret. cbv beta iota.
  destruct (extract_csrf_token_value
              (store_cookie self (login_cookie w))
              (log_call (login_call self) w)) as (ds & E & Hds).
  unfold login_call in E. simpl in E. rewrite E.
  exists ds. split; [|done].
  destruct (truthy _); unfold put_stderrs, put_stderr; simpl;
    by rewrite <- List.app_assoc.
Qed.

Lemma session_token_client_of (c : option string) :
  session_token (store_cookie (client_of cfg) c) = c.
Proof. by destruct c. Qed.

(** After a login that is not answered with an HTTP error, the run is the
    dispatch of the command on the logged-in client. *)
Lemma run_logged_in (args : command) (w : world) :
  http_error (login_status w) = false ->
  exists ds,
    run cfg args w
    = finish (dispatch (logged_in cfg w) args
                (put_stderrs
                   (ds ++ [LoggedIn (truthy (cookie_token (login_cookie w)))])
                   (log_call (login_call (client_of cfg)) w)))
    /\ Forall (fun d => glyph_of d = Plain) ds.
Proof.
  intros H. destruct (login_value (client_of cfg) w H) as (ds & E & Hds).
  rewrite session_token_client_of in E.
  exists ds. split; [|done].
  unfold run, main, try_except.
  unfold mbind at 1. unfold M_bind at 1. fold (client_of cfg). rewrite E.
  fold (logged_in cfg w).
  change (match args with
          | Fetch filter_name output => _
          | Sync filter_name file => _
          end) with (dispatch (logged_in cfg w) args).
  destruct (dispatch _ _ _) as [[[]|e] w']; [done|].
  simpl. destruct (is_RequestException e); [|done]. by mrun.
Qed.

End Dispatching.

(** The header of the PUT is refused in one of two ways. *)
Lemma token_error_kind (token : json) (e : exn) :
  token_error token = Some e -> e = InvalidHeader \/ e = ValueError.
Proof.
  unfold token_error, header_error. destruct (truthy token); [|done].
  destruct token as [| | |s| |]; try (intros [= <-]; by left).
  destruct (negb (clean_header_value s)); [intros [= <-]; by left|].
  destruct (illegal_header_value s); [intros [= <-]; by right|done].
Qed.

Lemma update_content_filters_cases (self : UnifiContentFilter)
    (filter_name : string) (domains : list string) (w : world) :
  update_content_filters self filter_name domains w =
  let w1 := log_call (GET (filters_url self)) w in
  if http_error (list_status w) then (Raise (HTTPError (list_status w)), w1)
  else
    match first_named (remote_filters w) filter_name with
    | None => (Ok false, put_stderr (FilterNotFound filter_name) w1)
    | Some f =>
        match dict_lookup f "_id" with
        | None => (Raise (KeyError "_id"), w1)
        | Some filter_id =>
            match token_error (csrf_token self) with
            | Some e => (Raise e, w1)
            | None =>
                let w2 := log_call (put_call self f filter_id domains) w1 in
                if http_error (put_status w)
                then (Raise (HTTPError (put_status w)), w2)
                else (Ok true, put_stderr (Updated (length domains)) w2)
            end
        end
    end.
Proof.
  destruct (http_error (list_status w)) eqn:H.
  - unfold update_content_filters.
    unfold mbind at 1. unfold M_bind at 1. by rewrite find_filter_run, H.
  - by rewrite update_content_filters_run.
Qed.

(** The [sync] branch, case by case. *)
Lemma dispatch_sync {lib : PyLib} (unifi : UnifiContentFilter)
    (filter_name file : string) (w : world) :
  dispatch unifi (Sync filter_name file) w =
  match files w !! file with
  | None =>
      (Raise (SystemExit 1),
       put_stderr NoDomains (put_stderr (FileNotFound file) w))
  | Some Unreadable => (Raise OSError, w)
  | Some Undecodable => (Raise ValueError, w)
  | Some (Text text) =>
      let domains := domains_of_text text in
      let w1 := put_stderr (ReadDomains (length domains) file) w in
      match domains with
      | [] => (Raise (SystemExit 1), put_stderr NoDomains w1)
      | _ :: _ =>
          let w2 := log_call (GET (filters_url unifi)) w1 in
          if http_error (list_status w)
          then (Raise (HTTPError (list_status w)), w2)
          else
            match first_named (remote_filters w) filter_name with
            | None =>
                (Raise (SystemExit 1),
                 put_stderr (FilterNotFound filter_name) w2)
            | Some f =>
                match dict_lookup f "_id" with
                | None => (Raise (KeyError "_id"), w2)
                | Some filter_id =>
                    match token_error (csrf_token unifi) with
                    | Some e => (Raise e, w2)
                    | None =>
                        let w3 :=
                          log_call (put_call unifi f filter_id domains) w2 in
                        if http_error (put_status w)
                        then (Raise (HTTPError (put_status w)), w3)
                        else
                          (Ok tt, put_stderr (Updated (length domains)) w3)
                    end
                end
            end
      end
  end.
Proof.
  unfold dispatch. unfold mbind at 1. unfold M_bind at 1.
  rewrite read_filter_file_run.
  destruct (files w !! file) as [[text| |]|]; try done.
  cbv zeta. fold (domains_of_text text).
  destruct (domains_of_text text) as [|d ds] eqn:E; [done|].
  unfold mbind at 1. unfold M_bind at 1.
  rewrite update_content_filters_cases. cbv zeta.
  change (list_status (put_stderr _ w)) with (list_status w).
  change (remote_filters (put_stderr _ w)) with (remote_filters w).
  change (put_status (put_stderr _ w)) with (put_status w).
  destruct (http_error (list_status w)); [done|].
  destruct (first_named _ _) as [f|]; [|done].
  destruct (dict_lookup f "_id"); [|done].
  destruct (token_error (csrf_token unifi)); [done|].
  by destruct (http_error (put_status w)).
Qed.

Lemma py_len_frame (v : json) (w : world) (r : result nat) (w' : world) :
  py_len v w = (r, w') -> w' = w /\ (forall e, r = Raise e -> e = TypeError).
Proof.
  destruct v; intros [= <- <-]; (split; [done|]); by intros e [= <-].
Qed.

Lemma sorted_texts_frame {lib : PyLib} (v : json) (w : world)
    (r : result (list string)) (w' : world) :
  sorted_texts v w = (r, w') ->
  w' = w /\ (forall e, r = Raise e -> e = TypeError).
Proof.
  unfold sorted_texts, mbind, M_bind.
  assert (A : forall items,
            match strs_of_items items with
            | Some strs => mret (sorted strs)
            | None =>
                match py_sorted items with
                | Some l => mret (map text_of l)
                | None => raise TypeError
                end
            end w = (r, w') ->
            w' = w /\ (forall e, r = Raise e -> e = TypeError)).
  { intros items. destruct (strs_of_items items); [|destruct (py_sorted items)];
      intros [= <- <-]; (split; [done|]); by intros e [= <-]. }
  destruct v; simpl; try apply A;
    intros [= <- <-]; (split; [done|]); by intros e [= <-].
Qed.

(** On a block list that is not a list of strings, [fetch] ends normally
    or with a [TypeError]; it makes no call and changes no file but the
    one given as output. *)
Lemma emit_untyped_frame {lib : PyLib} (domains : json)
    (filter_name : string) (output : option string) (w : world) :
  exists r w',
    emit_untyped domains filter_name output w = (r, w')
    /\ (r = Ok tt \/ r = Raise TypeError)
    /\ calls w' = calls w
    /\ (forall path, output_given output <> Some path ->
        files w' !! path = files w !! path).
Proof.
  unfold emit_untyped. unfold mbind at 1. unfold M_bind at 1.
  destruct (py_len domains w) as [[count|e] w1] eqn:E1;
    apply py_len_frame in E1 as [-> He1].
  2:{ eexists _, _. split; [reflexivity|]. rewrite (He1 e eq_refl). auto. }
  unfold mbind at 1. unfold M_bind at 1. unfold print_err at 1.
  destruct (output_given output) as [path|].
  - unfold write_filter_file_untyped.
    unfold mbind at 1. unfold M_bind at 1. unfold write_text at 1.
    unfold mbind at 1. unfold M_bind at 1.
    destruct (sorted_texts domains _) as [[lines|e] w2] eqn:E2;
      apply sorted_texts_frame in E2 as [-> He2].
    2:{ eexists _, _. split; [reflexivity|]. rewrite (He2 e eq_refl).
        split; [auto|]. split; [done|]. intros p Hp. simpl.
        apply lookup_insert_ne. congruence. }
    unfold mbind at 1. unfold M_bind at 1. unfold write_text at 1.
    unfold mbind at 1. unfold M_bind at 1.
    destruct (py_len domains _) as [[count'|e] w3] eqn:E3;
      apply py_len_frame in E3 as [-> He3].
    2:{ eexists _, _. split; [reflexivity|]. rewrite (He3 e eq_refl).
        split; [auto|]. split; [done|]. intros p Hp. simpl.
        rewrite !lookup_insert_ne by congruence. done. }
    eexists _, _. split; [reflexivity|].
    split; [auto|]. split; [done|]. intros p Hp. simpl.
    rewrite !lookup_insert_ne by congruence. done.
  - unfold mbind at 1. unfold M_bind at 1.
    destruct (sorted_texts domains _) as [[lines|e] w2] eqn:E2;
      apply sorted_texts_frame in E2 as [-> He2].
    2:{ eexists _, _. split; [reflexivity|]. rewrite (He2 e eq_refl). auto. }
    rewrite for_each_print_out. eexists _, _. split; [reflexivity|]. auto.
Qed.

(** The [fetch] branch, case by case. *)
Lemma dispatch_fetch {lib : PyLib} (unifi : UnifiContentFilter)
    (filter_name : string) (output : option string) (w : world) :
  dispatch unifi (Fetch filter_name output) w =
  let w1 := log_call (GET (filters_url unifi)) w in
  if http_error (list_status w) then (Raise (HTTPError (list_status w)), w1)
  else
    match first_named (remote_filters w) filter_name with
    | None =>
        (Raise (SystemExit 1), put_stderr (FilterNotFound filter_name) w1)
    | Some f =>
        let domains :=
          from_option id (JArr []) (dict_lookup f "block_list") in
        match as_strs domains with
        | Some strs =>
            let w2 := put_stderr (Fetched (length strs)) w1 in
            match output_given output with
            | Some path =>
                (Ok tt,
                 put_stderr (WroteDomains (length strs) path)
                   (put_file path (file_text strs filter_name) w2))
            | None => (Ok tt, put_stdouts (sorted strs) w2)
            end
        | None => emit_untyped domains filter_name output w1
        end
    end.
Proof.
  unfold dispatch. unfold mbind at 1. unfold M_bind at 1.
  rewrite find_filter_run. cbv zeta.
  destruct (http_error (list_status w)); [done|].
  destruct (first_named _ _) as [f|] eqn:E; [|done].
  destruct (first_named_not_empty _ _ _ E) as (fld & flds & ->).
  fold (emit_untyped
          (from_option id (JArr []) (dict_lookup (fld :: flds) "block_list"))
          filter_name output).
  destruct (as_strs _) as [strs|] eqn:Es.
  - destruct (from_option id (JArr []) _) as [| | | |l|]; try done.
    simpl in Es. mrun. rewrite (strs_of_items_length _ _ Es).
    destruct (output_given output) as [path|]; [done|].
    by rewrite (sorted_texts_items _ _ _ Es), for_each_print_out.
  - reflexivity.
Qed.

(** ** Login and the token *)

(** X3.  The padding [_extract_csrf_token] appends to the payload is made
    of at most three [=]; the padded payload has a length that is a
    multiple of four, and a payload whose length already is one is left as
    it is. *)
Theorem csrf_padding_completes_group (payload : string) :
  let padding := 4 - Str.len payload `mod` 4 in
  let padded :=
    if negb (padding =? 4)
    then payload +:+ Str.replicate (Z.to_nat padding) "="
    else payload in
  (exists k, (k <= 3)%nat /\ padded = payload +:+ Str.replicate k "=")
  /\ Nat.modulo (String.length padded) 4 = 0%nat
  /\ (Nat.modulo (String.length payload) 4 = 0%nat -> padded = payload).
Proof.
  cbv zeta. rewrite padding_pads_to_multiple_of_4.
  split; [|split].
  - unfold pad_to_multiple_of_4. eexists. split; [|reflexivity].
    assert (forall n, (Nat.modulo n 4 < 4)%nat)
      by (intros n; apply Nat.mod_upper_bound; lia).
    specialize (H (4 - Nat.modulo (String.length payload) 4)%nat). lia.
  - apply pad_to_multiple_of_4_length.
  - intros H. unfold pad_to_multiple_of_4. rewrite H. simpl.
    apply str_app_nil_r.
Qed.

Lemma csrf_padding_completes_group_witness :
  Nat.modulo (String.length "eyJjc3JmVG9rZW4iOiAidG9rIn0=") 4 = 0%nat
  /\ (let padding := 4 - Str.len "eyJjc3JmVG9rZW4iOiAidG9rIn0=" `mod` 4 in
      if negb (padding =? 4)
      then "eyJjc3JmVG9rZW4iOiAidG9rIn0="
           +:+ Str.replicate (Z.to_nat padding) "="
      else "eyJjc3JmVG9rZW4iOiAidG9rIn0=")
     = "eyJjc3JmVG9rZW4iOiAidG9rIn0=".
Proof.
  split; [reflexivity|].
  apply (proj2 (proj2 (csrf_padding_completes_group
                         "eyJjc3JmVG9rZW4iOiAidG9rIn0="))).
  reflexivity.
Defined.

Section Tokens.
Context {lib : PyLib}.

(** X4.  [_extract_csrf_token] warns exactly when an exception was caught.
    It prints nothing when the cookie is absent, when it does not have
    three parts, and when the payload is an object, with or without
    [csrfToken]; it prints one warning, and returns [None], when the
    payload is rejected by the base64 decoder or by the JSON reader, or is
    not an object.  In no case does it make a call or touch a file or the
    standard output. *)
Theorem extract_csrf_token_warnings (self : UnifiContentFilter) (w : world) :
  exists v w',
    _extract_csrf_token self w = (Ok v, w')
    /\ calls w' = calls w /\ files w' = files w /\ stdout w' = stdout w
    /\ match session_token self with
       | None => stderr w' = stderr w
       | Some cookie =>
           match Str.split "." cookie with
           | [_; payload; _] =>
               match urlsafe_b64decode (pad_to_multiple_of_4 payload) with
               | None =>
                   v = JNull
                   /\ stderr w' = (stderr w ++ [CsrfWarning ValueError])%list
               | Some decoded =>
                   match json_loads decoded with
                   | None =>
                       v = JNull
                       /\ stderr w'
                          = (stderr w ++ [CsrfWarning ValueError])%list
                   | Some (JObj _) => stderr w' = stderr w
                   | Some _ =>
                       v = JNull
                       /\ stderr w'
                          = (stderr w ++ [CsrfWarning AttributeError])%list
                   end
               end
           | _ => v = JNull /\ stderr w' = stderr w
           end
       end.
Proof.
  rewrite extract_csrf_token_run.
  destruct (session_token self) as [cookie|];
    [|by eexists _, _; split; [reflexivity|]].
  destruct (Str.split "." cookie) as [|? [|payload [|? [|? ?]]]];
    try by (eexists _, _; split; [reflexivity|]).
  destruct (urlsafe_b64decode _) as [decoded|];
    [|by eexists _, _; split; [reflexivity|]].
  destruct (json_loads decoded) as [[]|];
    by (eexists _, _; split; [reflexivity|]).
Qed.

(** X5.  When the answer to the login is not an HTTP error, [login]
    returns, having made one call, the POST of the credentials to
    [/api/auth/login], and printed no failure.  The client keeps the cookie
    of the answer, or its earlier one when the answer sets none, and its
    token is the one of that cookie: the [csrfToken] of a well-formed
    cookie, [None] for a malformed or absent one.  The last line printed
    tells whether a truthy token was found. *)
Theorem login_stores_token (self : UnifiContentFilter) (w : world) :
  http_error (login_status w) = false ->
  exists self' w' ds,
    login self w = (Ok self', w')
    /\ calls w' = (calls w ++ [login_call self])%list
    /\ host self' = host self /\ site self' = site self
    /\ session_token self'
       = match login_cookie w with
         | Some c => Some c
         | None => session_token self
         end
    /\ (forall cookie v, session_token self' = Some cookie ->
        well_formed cookie v -> csrf_token self' = v)
    /\ (malformed (session_token self') -> csrf_token self' = JNull)
    /\ stderr w'
       = (stderr w ++ ds ++ [LoggedIn (truthy (csrf_token self'))])%list
    /\ Forall (fun d => is_failure d = false) ds
    /\ files w' = files w /\ stdout w' = stdout w.
Proof.
  intros H. destruct (login_value self w H) as (ds & E & Hds).
  apply plain_is_no_failure in Hds.
  cbv zeta in E. eexists _, _, ds. split; [exact E|]. simpl.
  repeat split; try done.
  - by destruct (login_cookie w).
  - intros cookie v Hc Hw. rewrite Hc. by apply well_formed_cookie_token.
  - apply malformed_cookie_token.
Qed.

End Tokens.

Lemma login_stores_token_witness :
  http_error (login_status example_world) = false
  /\ exists self' w',
       @login Ref.lib (client_of example_config) example_world = (Ok self', w')
       /\ csrf_token self' = JStr "tok"
       /\ calls w' = [login_call (client_of example_config)].
Proof.
  split; [reflexivity|].
  destruct (@login_stores_token Ref.lib (client_of example_config)
              example_world eq_refl)
    as (self' & w' & ds & E & Hcalls & _ & _ & Hc & Hv & _).
  exists self', w'. split; [exact E|]. split; [|exact Hcalls].
  apply (Hv example_cookie); [exact Hc|].
  eexists _, _, _, _, _.
  split; [reflexivity|]. split; [by vm_compute|].
  split; [by vm_compute|]. reflexivity.
Defined.

(** ** The [sync] command *)

Lemma puts_put_stderr (d : diag) (w : world) : puts (put_stderr d w) = puts w.
Proof. reflexivity. Qed.

Lemma puts_put_stderrs (ds : list diag) (w : world) :
  puts (put_stderrs ds w) = puts w.
Proof. reflexivity. Qed.

Lemma puts_put_file (path content : string) (w : world) :
  puts (put_file path content w) = puts w.
Proof. reflexivity. Qed.

Lemma puts_put_stdouts (l : list string) (w : world) :
  puts (put_stdouts l w) = puts w.
Proof. reflexivity. Qed.

Lemma puts_log_PUT (url : string) (filter_id : json) (body headers : dict)
    (w : world) :
  puts (log_call (PUT url filter_id body headers) w)
  = (puts w ++ [PUT url filter_id body headers])%list.
Proof. unfold puts. simpl. by rewrite List.filter_app. Qed.

(** Computes the PUT calls of a world built from log and print steps. *)
Ltac puts_steps :=
  unfold put_call, login_call;
  repeat first
    [ rewrite puts_put_stderr | rewrite puts_put_stderrs
    | rewrite puts_put_file | rewrite puts_put_stdouts
    | rewrite puts_log_PUT | rewrite puts_log_GET | rewrite puts_log_POST ].

Section Sync.
Context {lib : PyLib}.
Variable cfg : config.


(** X7.  [sync] reports success only for an accepted upload: when it exits
    with status 0, none of the three answers was an HTTP error, the file
    exists and holds a domain, the name resolves to a filter with an
    [_id], and the run has made exactly one PUT, for that filter and with
    the domains of the file. *)
Theorem sync_exit_0_means_uploaded (filter_name file : string)
    (w w' : world) :
  run cfg (Sync filter_name file) w = (0, w') ->
  http_error (login_status w) = false
  /\ http_error (list_status w) = false
  /\ http_error (put_status w) = false
  /\ exists text f filter_id headers,
       files w !! file = Some (Text text)
       /\ domains_of_text text <> []
       /\ first_named (remote_filters w) filter_name = Some f
       /\ dict_lookup f "_id" = Some filter_id
       /\ puts w'
          = (puts w ++
             [PUT (filter_url_prefix (client_of cfg)) filter_id
                (dict_set f "block_list"
                   (JArr (map JStr (domains_of_text text))))
                headers])%list.
Proof.
  intros Hrun.
  destruct (http_error (login_status w)) eqn:Hlogin.
  { by rewrite run_login_error in Hrun. }
  destruct (run_logged_in cfg (Sync filter_name file) w Hlogin)
    as (ds & E & _).
  rewrite E, dispatch_sync in Hrun. simpl files in Hrun.
  destruct (files w !! file) as [[text| |]|]; try done.
  cbv zeta in Hrun.
  destruct (domains_of_text text) as [|d l] eqn:Hd; [done|].
  simpl list_status in Hrun. simpl remote_filters in Hrun.
  simpl put_status in Hrun.
  destruct (http_error (list_status w)); [done|].
  destruct (first_named _ _) as [f|] eqn:Hf; [|done].
  destruct (dict_lookup f "_id") as [filter_id|] eqn:Hid; [|done].
  destruct (token_error _) as [e|] eqn:He.
  { by destruct (token_error_kind _ _ He) as [-> | ->]. }
  destruct (http_error (put_status w)); [done|].
  simpl finish in Hrun. injection Hrun as <-.
  repeat split.
  exists text, f, filter_id, (csrf_headers (cookie_token (login_cookie w))).
  split; [done|]. split; [by rewrite Hd|]. split; [done|]. split; [done|].
  puts_steps. by rewrite Hd.
Qed.

(** X8.  Whatever the controller answers and whatever the files hold,
    [sync] exits with status 0 or 1, writes no file and nothing to the
    standard output, and makes at most one PUT. *)
Theorem sync_is_local_read_only (filter_name file : string) (w : world) :
  exists status w',
    run cfg (Sync filter_name file) w = (status, w')
    /\ (status = 0 \/ status = 1)
    /\ files w' = files w /\ stdout w' = stdout w
    /\ (puts w' = puts w \/ exists c, puts w' = (puts w ++ [c])%list).
Proof.
  destruct (http_error (login_status w)) eqn:Hlogin.
  { rewrite run_login_error by done. eexists _, _. split; [reflexivity|].
    repeat split; auto. left. by puts_steps. }
  destruct (run_logged_in cfg (Sync filter_name file) w Hlogin)
    as (ds & -> & _).
  rewrite dispatch_sync. simpl files.
  destruct (files w !! file) as [[text| |]|]; cbv zeta;
    try (eexists _, _; split; [reflexivity|]; repeat split; auto;
         left; by puts_steps).
  destruct (domains_of_text text) as [|d l];
    [eexists _, _; split; [reflexivity|]; repeat split; auto;
     left; by puts_steps|].
  simpl list_status. simpl remote_filters. simpl put_status.
  destruct (http_error (list_status w));
    [eexists _, _; split; [reflexivity|]; repeat split; auto;
     left; by puts_steps|].
  destruct (first_named _ _) as [f|];
    [|eexists _, _; split; [reflexivity|]; repeat split; auto;
      left; by puts_steps].
  destruct (dict_lookup f "_id") as [filter_id|];
    [|eexists _, _; split; [reflexivity|]; repeat split; auto;
      left; by puts_steps].
  destruct (token_error _) as [e|] eqn:He.
  { destruct (token_error_kind _ _ He) as [-> | ->];
      eexists _, _; (split; [reflexivity|]); repeat split; auto;
      left; by puts_steps. }
  destruct (http_error (put_status w));
    eexists _, _; (split; [reflexivity|]); repeat split; auto;
    right; eexists; by puts_steps.
Qed.

End Sync.



Lemma sync_exit_0_means_uploaded_witness :
  @run Ref.lib example_config (Sync "Samsung Adblock" "domains.txt")
    sync_world = (0, after_sync)
  /\ http_error (put_status sync_world) = false
  /\ exists text f filter_id headers,
       files sync_world !! "domains.txt" = Some (Text text)
       /\ domains_of_text text <> []
       /\ first_named (remote_filters sync_world) "Samsung Adblock" = Some f
       /\ dict_lookup f "_id" = Some filter_id
       /\ puts after_sync
          = (puts sync_world ++
             [PUT (filter_url_prefix (client_of example_config)) filter_id
                (dict_set f "block_list"
                   (JArr (map JStr (domains_of_text text))))
                headers])%list.
Proof.
  assert (E : @run Ref.lib example_config
                (Sync "Samsung Adblock" "domains.txt") sync_world
              = (0, after_sync)) by (by vm_compute).
  split; [exact E|].
  apply (@sync_exit_0_means_uploaded Ref.lib example_config
           "Samsung Adblock" "domains.txt" sync_world after_sync E).
Defined.

Section SyncFailures.
Context {lib : PyLib}.
Variable cfg : config.

(** X9.  When the file named on the command line does not exist, [sync]
    after a successful login says so, says that there are no domains to
    sync, and exits with status 1; the login is its only call. *)
Theorem sync_of_a_missing_file_fails (filter_name file : string) (w : world) :
  http_error (login_status w) = false ->
  files w !! file = None ->
  exists w' ds,
    run cfg (Sync filter_name file) w = (1, w')
    /\ calls w' = (calls w ++ [login_call (client_of cfg)])%list
    /\ stderr w' = (stderr w ++ ds ++ [FileNotFound file; NoDomains])%list
    /\ Forall (fun d => is_failure d = false) ds
    /\ files w' = files w /\ stdout w' = stdout w.
Proof.
  intros Hlogin Hfile.
  destruct (run_logged_in cfg (Sync filter_name file) w Hlogin)
    as (ds & -> & Hds).
  rewrite dispatch_sync. simpl files. rewrite Hfile. simpl finish.
  eexists _, (ds ++ [LoggedIn _])%list. split; [reflexivity|]. simpl.
  repeat split; try done.
  - by rewrite <- !List.app_assoc.
  - apply Forall_app. split; [by apply plain_is_no_failure|].
    by repeat constructor.
Qed.

(** X10.  When the file holds domains but no filter of the controller has
    the requested name, [sync] exits with status 1 after the login and the
    listing: it makes no PUT and its last line is the not-found
    diagnostic. *)
Theorem sync_to_an_unknown_filter_fails (filter_name file text : string)
    (w : world) :
  http_error (login_status w) = false ->
  http_error (list_status w) = false ->
  files w !! file = Some (Text text) ->
  domains_of_text text <> [] ->
  first_named (remote_filters w) filter_name = None ->
  exists w' ds,
    run cfg (Sync filter_name file) w = (1, w')
    /\ calls w'
       = (calls w ++ [login_call (client_of cfg);
                      GET (filters_url (client_of cfg))])%list
    /\ stderr w' = (stderr w ++ ds ++ [FilterNotFound filter_name])%list
    /\ Forall (fun d => is_failure d = false) ds
    /\ files w' = files w.
Proof.
  intros Hlogin Hlist Hfile Hdom Hf.
  destruct (run_logged_in cfg (Sync filter_name file) w Hlogin)
    as (ds & -> & Hds).
  rewrite dispatch_sync. simpl files. rewrite Hfile. cbv zeta.
  destruct (domains_of_text text) as [|d l] eqn:E; [done|].
  simpl list_status. simpl remote_filters. rewrite Hlist, Hf. simpl finish.
  eexists _, (ds ++ [LoggedIn _; ReadDomains _ file])%list.
  split; [reflexivity|]. simpl. repeat split; try done.
  - by rewrite <- !List.app_assoc.
  - by rewrite <- !List.app_assoc.
  - apply Forall_app. split; [by apply plain_is_no_failure|].
    by repeat constructor.
Qed.


End SyncFailures.

Lemma sync_of_a_missing_file_fails_witness :
  http_error (login_status sync_world) = false
  /\ files sync_world !! "nope.txt" = None
  /\ exists w',
       @run Ref.lib example_config (Sync "Samsung Adblock" "nope.txt")
         sync_world = (1, w')
       /\ calls w' = [login_call (client_of example_config)].
Proof.
  split; [reflexivity|]. split; [reflexivity|].
  destruct (@sync_of_a_missing_file_fails Ref.lib example_config
              "Samsung Adblock" "nope.txt" sync_world eq_refl eq_refl)
    as (w' & ds & E & Hcalls & _).
  exists w'. by split.
Defined.

Lemma sync_to_an_unknown_filter_fails_witness :
  http_error (login_status sync_world) = false
  /\ domains_of_text domains_file <> []
  /\ first_named (remote_filters sync_world) "Kids" = None
  /\ exists w',
       @run Ref.lib example_config (Sync "Kids" "domains.txt") sync_world
       = (1, w')
       /\ puts w' = [].
Proof.
  split; [reflexivity|]. split; [by vm_compute|]. split; [reflexivity|].
  destruct (@sync_to_an_unknown_filter_fails Ref.lib example_config
              "Kids" "domains.txt" domains_file sync_world
              eq_refl eq_refl eq_refl ltac:(by vm_compute) eq_refl)
    as (w' & ds & E & Hcalls & _).
  exists w'. split; [exact E|]. unfold puts. by rewrite Hcalls.
Defined.


(** ** The [fetch] command *)

Section Fetch.
Context {lib : PyLib}.
Variable cfg : config.

(** X12.  Whatever the controller answers, [fetch] exits with status 0 or
    1 and never makes a PUT: its calls are the login, followed by the
    listing when the login succeeded.  A file other than the one given as
    output is never changed. *)
Theorem fetch_never_updates_the_controller (filter_name : string)
    (output : option string) (w : world) :
  exists status w',
    run cfg (Fetch filter_name output) w = (status, w')
    /\ (status = 0 \/ status = 1)
    /\ puts w' = puts w
    /\ calls w'
       = (calls w ++
          login_call (client_of cfg)
          :: (if http_error (login_status w) then []
              else [GET (filters_url (client_of cfg))]))%list
    /\ (forall path, output_given output <> Some path ->
        files w' !! path = files w !! path).
Proof.
  destruct (http_error (login_status w)) eqn:Hlogin.
  { rewrite run_login_error by done. eexists _, _. split; [reflexivity|].
    repeat split; auto. by puts_steps. }
  destruct (run_logged_in cfg (Fetch filter_name output) w Hlogin)
    as (ds & -> & _).
  rewrite dispatch_fetch. cbv zeta.
  simpl list_status. simpl remote_filters.
  assert (A : forall l : list http_call,
            ((l ++ [login_call (client_of cfg)])
               ++ [GET (filters_url (logged_in cfg w))])%list
            = (l ++ [login_call (client_of cfg);
                     GET (filters_url (client_of cfg))])%list)
    by (intros l; by rewrite <- List.app_assoc).
  destruct (http_error (list_status w));
    [eexists _, _; split; [reflexivity|]; simpl; repeat split; auto;
     by puts_steps|].
  destruct (first_named _ _) as [f|];
    [|eexists _, _; split; [reflexivity|]; simpl; repeat split; auto;
      by puts_steps].
  destruct (as_strs _) as [domains|].
  - destruct (output_given output) as [path|];
      eexists _, _; (split; [reflexivity|]); simpl; repeat split; auto;
      try by puts_steps.
    intros p Hp. apply lookup_insert_ne. congruence.
  - destruct (emit_untyped_frame
                (from_option id (JArr []) (dict_lookup f "block_list"))
                filter_name output
                (log_call (GET (filters_url (logged_in cfg w)))
                   (put_stderrs
                      (ds ++
                       [LoggedIn (truthy (cookie_token (login_cookie w)))])
                      (log_call (login_call (client_of cfg)) w))))
      as (r & w' & -> & Hr & Hcalls & Hfiles).
    assert (P : puts w' = puts w).
    { unfold puts at 1. rewrite Hcalls.
      change (puts (log_call (GET (filters_url (logged_in cfg w)))
                      (put_stderrs
                         (ds ++
                          [LoggedIn (truthy (cookie_token (login_cookie w)))])
                         (log_call (login_call (client_of cfg)) w)))
              = puts w).
      by puts_steps. }
    destruct Hr as [-> | ->]; eexists _, _; (split; [reflexivity|]);
      (split; [auto|]); (split; [exact P|]);
      (split; [rewrite Hcalls; apply A|]);
      intros p Hp; by rewrite (Hfiles p Hp).
Qed.

End Fetch.

Lemma domains_of_file_text (domains : list string) (filter_name : string) :
  Forall (fun d => clean_domain d = true) domains ->
  Str.has_eol filter_name = false ->
  domains_of_text (file_text domains filter_name) = sorted domains.
Proof.
  intros Hdom Hname. unfold domains_of_text.
  rewrite readlines_file_text; [|done|].
  - simpl map. simpl List.filter. rewrite header_line_skipped. simpl.
    apply read_back. unfold sorted. by rewrite merge_sort_Permutation.
  - eapply Forall_impl; [exact Hdom|].
    intros d Hd. by apply clean_domain_spec in Hd as (_ & _ & ?).
Qed.


Section FetchOutcomes.
Context {lib : PyLib}.
Variable cfg : config.

(** X13.  When login and listing succeed but no filter has the requested
    name, [fetch] exits with status 1: its last line is the not-found
    diagnostic, nothing is written to the standard output, and no file is
    created or changed, with or without an output path. *)
Theorem fetch_of_an_unknown_filter_fails (filter_name : string)
    (output : option string) (w : world) :
  http_error (login_status w) = false ->
  http_error (list_status w) = false ->
  first_named (remote_filters w) filter_name = None ->
  exists w' ds,
    run cfg (Fetch filter_name output) w = (1, w')
    /\ stderr w' = (stderr w ++ ds ++ [FilterNotFound filter_name])%list
    /\ Forall (fun d => is_failure d = false) ds
    /\ stdout w' = stdout w /\ files w' = files w.
Proof.
  intros Hlogin Hlist Hf.
  destruct (run_logged_in cfg (Fetch filter_name output) w Hlogin)
    as (ds & -> & Hds).
  rewrite dispatch_fetch. cbv zeta. simpl list_status. simpl remote_filters.
  rewrite Hlist, Hf. simpl finish.
  eexists _, (ds ++ [LoggedIn _])%list. split; [reflexivity|]. simpl.
  repeat split; try done.
  - by rewrite <- !List.app_assoc.
  - apply Forall_app. split; [by apply plain_is_no_failure|].
    by repeat constructor.
Qed.

(** X14.  When the listing is answered with an HTTP error, [fetch] exits
    with status 1 and its last line is the error with that status; nothing
    is written to the standard output and no file changes. *)
Theorem fetch_reports_a_failed_listing (filter_name : string)
    (output : option string) (w : world) :
  http_error (login_status w) = false ->
  400 <= list_status w < 600 ->
  exists w' ds,
    run cfg (Fetch filter_name output) w = (1, w')
    /\ stderr w'
       = (stderr w ++ ds ++ [ErrorDiag (HTTPError (list_status w))])%list
    /\ Forall (fun d => is_failure d = false) ds
    /\ stdout w' = stdout w /\ files w' = files w.
Proof.
  intros Hlogin Hlist. apply http_error_spec in Hlist.
  destruct (run_logged_in cfg (Fetch filter_name output) w Hlogin)
    as (ds & -> & Hds).
  rewrite dispatch_fetch. cbv zeta. simpl list_status.
  rewrite Hlist. simpl finish.
  eexists _, (ds ++ [LoggedIn _])%list. split; [reflexivity|]. simpl.
  repeat split; try done.
  - by rewrite <- !List.app_assoc.
  - apply Forall_app. split; [by apply plain_is_no_failure|].
    by repeat constructor.
Qed.

(** X15.  When login and listing succeed and the name resolves to a filter
    whose [block_list] is the list of strings [domains], [fetch] with a
    non-empty output path exits with status 0 and leaves at that path the
    header followed by the sorted domains, one per line, whatever the file
    held before; nothing goes to the standard output and no other file
    changes.  If the domains are clean and the name has no end-of-line
    character, [read_filter_file] finds in that file the sorted
    domains. *)
Theorem fetch_writes_the_output_file (filter_name path : string)
    (output : option string) (w : world) (f : dict) (domains : list string) :
  http_error (login_status w) = false ->
  http_error (list_status w) = false ->
  first_named (remote_filters w) filter_name = Some f ->
  dict_lookup f "block_list" = Some (JArr (map JStr domains)) ->
  output_given output = Some path ->
  exists w' text,
    run cfg (Fetch filter_name output) w = (0, w')
    /\ files w' = <[path := Text text]> (files w)
    /\ text = header filter_name +:+ lines_text (sorted domains)
    /\ stdout w' = stdout w
    /\ last (stderr w') = Some (WroteDomains (length domains) path)
    /\ (Forall (fun d => clean_domain d = true) domains ->
        Str.has_eol filter_name = false ->
        fst (read_filter_file path true w') = Ok (sorted domains)).
Proof.
  intros Hlogin Hlist Hf Hb Hout.
  destruct (run_logged_in cfg (Fetch filter_name output) w Hlogin)
    as (ds & -> & Hds).
  rewrite dispatch_fetch. cbv zeta. simpl list_status. simpl remote_filters.
  rewrite Hlist, Hf, Hb. simpl from_option. simpl as_strs.
  rewrite strs_of_items_strs, Hout. simpl finish.
  eexists _, _. split; [reflexivity|]. simpl.
  split; [reflexivity|]. split; [apply file_text_layout|].
  split; [done|]. split; [by rewrite last_app|].
  intros Hclean Hname.
  unfold read_filter_file, path_lookup, read_text, mbind, M_bind. simpl.
  rewrite lookup_insert_eq. simpl. rewrite read_loop. simpl app.
  f_equal. by apply domains_of_file_text.
Qed.


End FetchOutcomes.

Lemma fetch_of_an_unknown_filter_fails_witness :
  http_error (login_status example_world) = false
  /\ http_error (list_status example_world) = false
  /\ first_named (remote_filters example_world) "Kids" = None
  /\ exists w' ds,
       @run Ref.lib example_config (Fetch "Kids" (Some "out.txt"))
         example_world = (1, w')
       /\ stderr w' = (ds ++ [FilterNotFound "Kids"])%list
       /\ Forall (fun d => is_failure d = false) ds
       /\ stdout w' = [] /\ files w' = files example_world.
Proof.
  split; [reflexivity|]. split; [reflexivity|]. split; [reflexivity|].
  apply (@fetch_of_an_unknown_filter_fails Ref.lib example_config "Kids"
           (Some "out.txt") example_world eq_refl eq_refl eq_refl).
Defined.

Lemma fetch_reports_a_failed_listing_witness :
  http_error (login_status (with_list_status 500 example_world)) = false
  /\ 400 <= list_status (with_list_status 500 example_world) < 600
  /\ exists w' ds,
       @run Ref.lib example_config (Fetch "Samsung Adblock" None)
         (with_list_status 500 example_world) = (1, w')
       /\ stderr w' = (ds ++ [ErrorDiag (HTTPError 500)])%list
       /\ Forall (fun d => is_failure d = false) ds
       /\ stdout w' = [] /\ files w' = files example_world.
Proof.
  split; [reflexivity|]. split; [simpl; lia|].
  apply (@fetch_reports_a_failed_listing Ref.lib example_config
           "Samsung Adblock" None (with_list_status 500 example_world)
           eq_refl).
  simpl; lia.
Defined.

Lemma fetch_writes_the_output_file_witness :
  http_error (login_status example_world) = false
  /\ output_given (Some "out.txt") = Some "out.txt"
  /\ exists w',
       @run Ref.lib example_config (Fetch "Samsung Adblock" (Some "out.txt"))
         example_world = (0, w')
       /\ files w' !! "out.txt"
          = Some (Text (header "Samsung Adblock" +:+ "a.com" +:+ nl
                        +:+ "b.com" +:+ nl))
       /\ fst (read_filter_file "out.txt" true w') = Ok ["a.com"; "b.com"].
Proof.
  split; [reflexivity|]. split; [reflexivity|].
  destruct (@fetch_writes_the_output_file Ref.lib example_config
              "Samsung Adblock" "out.txt" (Some "out.txt") example_world _
              ["b.com"; "a.com"] eq_refl eq_refl eq_refl eq_refl eq_refl)
    as (w' & text & E & Hfiles & -> & _ & _ & Hread).
  exists w'. split; [exact E|]. split.
  - rewrite Hfiles, lookup_insert_eq. by vm_compute.
  - rewrite Hread; [reflexivity|by repeat constructor|reflexivity].
Defined.


(** ** The written file does not depend on the order of the domains *)

Lemma sorted_permutation (l l' : list string) :
  l ≡ₚ l' -> sorted l = sorted l'.
Proof.
  intros H. unfold sorted.
  apply (Sorted_unique String.le); try apply Sorted_merge_sort; try apply _.
  by rewrite !merge_sort_Permutation.
Qed.

(** X17.  [write_filter_file] is insensitive to the order in which the
    domains are given: two lists that are permutations of one another give
    the same file and the same diagnostic.  The domains of the file are a
    sorted permutation of the given ones, so a domain given twice is
    written twice. *)
Theorem write_filter_file_ignores_order (filepath filter_name : string)
    (domains domains' : list string) (w : world) :
  domains ≡ₚ domains' ->
  write_filter_file filepath domains filter_name w
  = write_filter_file filepath domains' filter_name w
  /\ exists body,
       file_text domains filter_name = header filter_name +:+ lines_text body
       /\ body ≡ₚ domains /\ Sorted String.le body.
Proof.
  intros H. split.
  - unfold write_filter_file, file_text.
    by rewrite (sorted_permutation _ _ H), (Permutation_length H).
  - exists (sorted domains). split; [apply file_text_layout|].
    split; [apply merge_sort_Permutation|apply Sorted_merge_sort, _].
Qed.

Lemma write_filter_file_ignores_order_witness :
  ["b.com"; "a.com"; "b.com"] ≡ₚ ["b.com"; "b.com"; "a.com"]
  /\ write_filter_file "filters.txt" ["b.com"; "a.com"; "b.com"]
       "Samsung Adblock" idle
     = write_filter_file "filters.txt" ["b.com"; "b.com"; "a.com"]
         "Samsung Adblock" idle.
Proof.
  assert (H : ["b.com"; "a.com"; "b.com"] ≡ₚ ["b.com"; "b.com"; "a.com"])
    by (constructor; apply perm_swap).
  split; [exact H|].
  exact (proj1 (write_filter_file_ignores_order "filters.txt"
                  "Samsung Adblock" _ _ idle H)).
Defined.

(** ** What [sync] uploads, and line ends *)

Section Uploads.
Context {lib : PyLib}.
Variable cfg : config.

(** X18.  [sync] never empties a filter and never uploads a line it would
    not read back: whatever the controller answers and the files hold,
    either the run makes no PUT, or it makes exactly one, whose body has as
    [block_list] a non-empty list of clean domains, those of the file. *)
Theorem sync_uploads_only_clean_domains (filter_name file : string)
    (w : world) :
  exists status w',
    run cfg (Sync filter_name file) w = (status, w')
    /\ (puts w' = puts w
        \/ exists url filter_id body headers text,
             puts w' = (puts w ++ [PUT url filter_id body headers])%list
             /\ files w !! file = Some (Text text)
             /\ dict_lookup body "block_list"
                = Some (JArr (map JStr (domains_of_text text)))
             /\ domains_of_text text <> []
             /\ Forall (fun d => clean_domain d = true)
                  (domains_of_text text)).
Proof.
  destruct (http_error (login_status w)) eqn:Hlogin.
  { rewrite run_login_error by done. eexists _, _. split; [reflexivity|].
    left. by puts_steps. }
  destruct (run_logged_in cfg (Sync filter_name file) w Hlogin)
    as (ds & -> & _).
  rewrite dispatch_sync. simpl files.
  destruct (files w !! file) as [[text| |]|] eqn:Hfile; cbv zeta;
    try (eexists _, _; split; [reflexivity|]; left; by puts_steps).
  destruct (domains_of_text text) as [|d l] eqn:Hd;
    [eexists _, _; split; [reflexivity|]; left; by puts_steps|].
  simpl list_status. simpl remote_filters. simpl put_status.
  destruct (http_error (list_status w));
    [eexists _, _; split; [reflexivity|]; left; by puts_steps|].
  destruct (first_named _ _) as [f|];
    [|eexists _, _; split; [reflexivity|]; left; by puts_steps].
  destruct (dict_lookup f "_id") as [filter_id|];
    [|eexists _, _; split; [reflexivity|]; left; by puts_steps].
  assert (C : Forall (fun d => clean_domain d = true) (d :: l))
    by (rewrite <- Hd; apply domains_of_text_clean).
  destruct (token_error _) as [e|];
    [simpl finish; destruct (is_RequestException e);
     eexists _, _; (split; [reflexivity|]); left; by puts_steps|].
  destruct (http_error (put_status w));
    eexists _, _; (split; [reflexivity|]); right;
    eexists _, _, _, _, text; rewrite Hd; (split; [by puts_steps|]);
    (split; [done|]); (split; [apply dict_lookup_set_eq|]); by split.
Qed.

End Uploads.

Lemma readlines_to_crlf (s : string) :
  has_cr s = false -> Str.readlines (to_crlf s) = Str.readlines s.
Proof.
  induction s as [|c s IH]; [done|]. simpl. intros H.
  apply orb_false_iff in H as [Hc Hs].
  destruct (Ascii.eqb c Str.LF) eqn:HLF.
  - simpl. by rewrite IH.
  - simpl. by rewrite HLF, Hc, IH.
Qed.

(** X19.  Line ends do not matter to [read_filter_file]: a file saved with
    carriage return and line feed at the end of each line yields the same
    domains as the same text saved with line feeds only. *)
Theorem read_filter_file_accepts_crlf (filepath text : string)
    (silent : bool) (w : world) :
  has_cr text = false ->
  fst (read_filter_file filepath silent
         (put_file filepath (to_crlf text) w))
  = fst (read_filter_file filepath silent (put_file filepath text w)).
Proof.
  intros H.
  unfold read_filter_file, path_lookup, read_text, mbind, M_bind. simpl.
  rewrite !lookup_insert_eq. simpl.
  rewrite !read_loop, readlines_to_crlf by done.
  by destruct silent.
Qed.

Lemma read_filter_file_accepts_crlf_witness :
  has_cr domains_file = false
  /\ fst (read_filter_file "domains.txt" true
            (put_file "domains.txt" (to_crlf domains_file) idle))
     = Ok ["z.com"; "a.com"; "z.com"].
Proof.
  split; [reflexivity|].
  rewrite (read_filter_file_accepts_crlf "domains.txt" domains_file true idle
             eq_refl).
  by vm_compute.
Defined.
